(** * EcoVision: the waste-collection route planner

    A shallow embedding of [src/utils/plastic_route.py]: the haversine
    distance, the hotspot clusterer, the greedy nearest-neighbour route
    builder and the pipeline that composes them; and of the control flow
    of the explanation endpoint of [src/backend/api.py].

    Modelling conventions.
    - A Python [float] is a real number ([R]): coordinates are finite and
      rounding is not modelled.  [float("inf")] is the extra element [Inf]
      of [xfloat].
    - A Python [int] is a [Z]; list subscripts follow Python (a negative
      subscript counts from the end).
    - A raised exception is the [Raise] outcome of [result].
    - A pandas data frame is a mutable object: it lives in a [heap] and
      functions receive a reference to it. *)

From Stdlib Require Import Reals Lra.
From Equations Require Import Equations.
From stdpp Require Import functions gmap strings list sorting pretty.

(** ** Exceptions *)

(** The Python exceptions that the code can raise, and [InvalidParameter],
    the error of the specification's clusterer. *)
Inductive exn : Set :=
| IndexError
| TypeError
| KeyError
| ValueError
| InvalidParameter.

Inductive result (A : Type) : Type :=
| Ok (a : A)
| Raise (e : exn).
Arguments Ok {A} a.
Arguments Raise {A} e.

(** Sequencing: an exception ends the computation. *)
#[global] Instance result_ret : MRet result := fun A a => Ok a.
#[global] Instance result_bind : MBind result := fun A B k r =>
  match r with
  | Ok a => k a
  | Raise e => Raise e
  end.

Definition is_ok {A} (r : result A) : Prop := exists a, r = Ok a.

(** ** Distance primitive *)

Section Distance.
Local Open Scope R_scope.

(** [math.radians] *)
Definition radians (x : R) : R := x * (PI / 180).

(** The argument of [sqrt] in [haversine], on angles in radians. *)
Definition hav_a (lat1 lon1 lat2 lon2 : R) : R :=
  let dlon := lon2 - lon1 in
  let dlat := lat2 - lat1 in
  sin (dlat / 2) ^ 2 + cos lat1 * cos lat2 * sin (dlon / 2) ^ 2.

Definition haversine (lat1 lon1 lat2 lon2 : R) : R :=
  let lon1 := radians lon1 in
  let lat1 := radians lat1 in
  let lon2 := radians lon2 in
  let lat2 := radians lat2 in
  let a := hav_a lat1 lon1 lat2 lon2 in
  let c := 2 * asin (sqrt a) in
  6371 * c.

End Distance.

(** ** Route builder *)

(** A point is a two-element list [[lat, lon]]. *)
Abbreviation Point := (R * R)%type.

(** [l[k]] on a Python list. *)
Definition py_getitem {A} (l : list A) (k : Z) : result A :=
  let n := Z.of_nat (length l) in
  let k' := if (k <? 0)%Z then (k + n)%Z else k in
  if ((0 <=? k') && (k' <? n))%Z then
    match l !! Z.to_nat k' with
    | Some x => Ok x
    | None => Raise IndexError
    end
  else Raise IndexError.

(** The value of [min_dist]: [float("inf")] or a distance. *)
Inductive xfloat : Type :=
| Inf
| Fin (r : R).

#[global] Instance Rlt_decision (x y : R) : Decision (x < y)%R := Rlt_dec x y.

(** [dist < min_dist] *)
Definition float_lt (dist : R) (min_dist : xfloat) : bool :=
  match min_dist with
  | Inf => true
  | Fin m => bool_decide (dist < m)%R
  end.

Definition dist_to (last p : Point) : R :=
  haversine last.1 last.2 p.1 p.2.

(** The state of the inner [for] loop. *)
Record scan_state : Type := ScanState {
  min_dist : xfloat;
  next_idx : option Z
}.

Definition scan_init : scan_state := ScanState Inf None.

(** One iteration of [for i, p in enumerate(points)]. *)
Definition scan_step (last : Point) (visited : list Z) (i : Z) (p : Point)
    (st : scan_state) : scan_state :=
  if bool_decide (i ∈ visited) then st
  else
    let dist := dist_to last p in
    if float_lt dist (min_dist st) then ScanState (Fin dist) (Some i)
    else st.

(** The inner [for] loop over the points from index [i] on. *)
Fixpoint scan (last : Point) (visited : list Z) (i : Z) (ps : list Point)
    (st : scan_state) : scan_state :=
  match ps with
  | [] => st
  | p :: ps' => scan last visited (i + 1) ps' (scan_step last visited i p st)
  end.

(** The body of the [while] loop up to the two [append]s: the index
    [next_idx] chosen by the scan and the point [points[next_idx]]. *)
Definition next_stop (points : list Point) (visited : list Z)
    (route : list Point) : result (Z * Point) :=
  last ← py_getitem route (-1);
  match next_idx (scan last visited 0 points scan_init) with
  | None => Raise TypeError
  | Some i =>
      p ← py_getitem points i;
      Ok (i, p)
  end.

(** The [while len(visited) < len(points)] loop; it returns the final
    [(visited, route)]. *)
Equations? route_loop (points : list Point) (visited : list Z)
    (route : list Point) : result (list Z * list Point)
    by wf (length points - length visited) lt :=
  route_loop points visited route with decide (length visited < length points) := {
    | right _ => Ok (visited, route)
    | left Hlt with next_stop points visited route := {
        | Raise e => Raise e
        | Ok (i, p) => route_loop points (visited ++ [i]) (route ++ [p]) } }.
Proof. rewrite length_app. simpl. lia. Qed.

(** [optimize_route(points, start_index)]; the default argument is
    [optimize_route_default]. *)
Definition optimize_route (points : list Point) (start_index : Z)
    : result (list Point) :=
  if bool_decide (length points = 0) then Ok []
  else
    p ← py_getitem points start_index;
    '(_, route) ← route_loop points [start_index] [p];
    Ok route.

Definition optimize_route_default (points : list Point) : result (list Point) :=
  optimize_route points 0.


(** ** Data frames *)

(** A column holds floats or integers. *)
Inductive column : Type :=
| FloatCol (xs : list R)
| IntCol (xs : list Z).

Definition col_length (c : column) : nat :=
  match c with
  | FloatCol xs => length xs
  | IntCol xs => length xs
  end.

(** The entries of a column as floats, as [.values] gives them. *)
Definition col_floats (c : column) : list R :=
  match c with
  | FloatCol xs => xs
  | IntCol xs => IZR <$> xs
  end.

(** A frame: the length of its index and its named columns. *)
Record DataFrame : Type := mkDataFrame {
  df_index : nat;
  df_columns : gmap string column
}.

(** Every column has one entry per row. *)
Definition df_wf (d : DataFrame) : Prop :=
  map_Forall (fun _ c => col_length c = df_index d) (df_columns d).

(** [d[[lat_col, lon_col]].values]: one [[lat, lon]] row per entry. *)
Definition df_values2 (d : DataFrame) (lat_col lon_col : string)
    : result (list Point) :=
  match df_columns d !! lat_col, df_columns d !! lon_col with
  | Some lat, Some lon => Ok (zip (col_floats lat) (col_floats lon))
  | _, _ => Raise KeyError
  end.

(** [d[name] = col], on the frame value: the column is added or replaced.
    pandas refuses a column whose length is not that of the index with a
    [ValueError]; the labels of an estimator come one per row. *)
Definition df_with_column (d : DataFrame) (name : string) (col : column)
    : result DataFrame :=
  if bool_decide (col_length col = df_index d)
  then Ok (mkDataFrame (df_index d) (<[name := col]> (df_columns d)))
  else Raise ValueError.

(** *** The store *)

(** A frame is passed by reference; the store gives the frame each
    reference denotes. *)
Abbreviation ref := nat.
Abbreviation heap := (ref -> DataFrame).

(** A computation that reads and writes the store and may raise. *)
Definition py (A : Type) : Type := heap -> result A * heap.

#[global] Instance py_ret : MRet py := fun A a σ => (Ok a, σ).
#[global] Instance py_bind : MBind py := fun A B k m σ =>
  match m σ with
  | (Ok a, σ') => k a σ'
  | (Raise e, σ') => (Raise e, σ')
  end.

Definition lift {A} (r : result A) : py A := fun σ => (r, σ).

(** [df[[lat_col, lon_col]].values] *)
Definition df_getitem_values (df : ref) (lat_col lon_col : string)
    : py (list Point) :=
  fun σ => (df_values2 (σ df) lat_col lon_col, σ).

(** [df[name] = col]: the frame that [df] denotes is updated in place. *)
Definition df_setitem (df : ref) (name : string) (col : column) : py unit :=
  fun σ =>
    match df_with_column (σ df) name col with
    | Ok d' => (Ok (), <[df := d']> σ)
    | Raise e => (Raise e, σ)
    end.

(** [df[name]] where the column holds integers, as the column
    ["Cluster"] does once [cluster_hotspots] has written the labels; the
    pipeline reads no other column this way. *)
Definition df_getitem_ints (df : ref) (name : string) : py (list Z) :=
  fun σ =>
    match df_columns (σ df) !! name with
    | Some (IntCol xs) => (Ok xs, σ)
    | Some (FloatCol _) => (Raise TypeError, σ)
    | None => (Raise KeyError, σ)
    end.

(** ** Hotspot clustering *)

(** [KMeans(n_clusters=k, random_state=42)] belongs to scikit-learn: the
    estimator is a parameter.  From the number of clusters and the
    coordinate rows it gives the labels of [fit_predict], one per row, and
    [cluster_centers_], or it raises. *)
Abbreviation estimator := (Z -> list Point -> result (list Z * list Point)).

(** [Series.unique()]: the distinct values in order of first occurrence. *)
Definition unique (xs : list Z) : list Z :=
  foldl (fun acc x => if bool_decide (x ∈ acc) then acc else acc ++ [x]) [] xs.

(** [sorted(...)] on integers. *)
Definition sorted (xs : list Z) : list Z := merge_sort Z.le xs.

(** [f"Cluster_{cluster_id}"] *)
Definition cluster_label (cluster_id : Z) : string :=
  "Cluster_" +:+ pretty cluster_id.

(** The rows of [coords] whose label is [cluster_id], in their order. *)
Definition rows_where (labels : list Z) (cluster_id : Z)
    (coords : list Point) : list Point :=
  snd <$> filter (fun lp => lp.1 = cluster_id) (zip labels coords).

(** [df[df["Cluster"] == cluster_id][[lat_col, lon_col]].values.tolist()] *)
Definition df_cluster_points (df : ref) (lat_col lon_col : string)
    (cluster_id : Z) : py (list Point) :=
  labels ← df_getitem_ints df "Cluster";
  coords ← df_getitem_values df lat_col lon_col;
  mret (rows_where labels cluster_id coords).

(** [routes[key] = route] on a dict, which keeps insertion order. *)
Fixpoint dict_set {V} (key : string) (v : V) (d : list (string * V))
    : list (string * V) :=
  match d with
  | [] => [(key, v)]
  | (key', v') :: d' =>
      if decide (key = key') then (key, v) :: d'
      else (key', v') :: dict_set key v d'
  end.

(** The [for cluster_id in ...] loop of [generate_collection_routes]. *)
Fixpoint routes_loop (df : ref) (lat_col lon_col : string)
    (cluster_ids : list Z) (routes : list (string * list Point))
    : py (list (string * list Point)) :=
  match cluster_ids with
  | [] => mret routes
  | cluster_id :: rest =>
      cluster_points ← df_cluster_points df lat_col lon_col cluster_id;
      route ← lift (optimize_route_default cluster_points);
      routes_loop df lat_col lon_col rest
        (dict_set (cluster_label cluster_id) route routes)
  end.

Section Pipeline.
Variable KMeans : estimator.

Definition cluster_hotspots (df : ref) (lat_col lon_col : string)
    (n_clusters : Z) : py (ref * list Point) :=
  coords ← df_getitem_values df lat_col lon_col;
  '(labels, cluster_centers) ← lift (KMeans n_clusters coords);
  _ ← df_setitem df "Cluster" (IntCol labels);
  mret (df, cluster_centers).

(** ** Full pipeline *)

Definition generate_collection_routes (df : ref) (lat_col lon_col : string)
    (n_clusters : Z) : py (list (string * list Point)) :=
  '(df_clustered, centers) ← cluster_hotspots df lat_col lon_col n_clusters;
  labels ← df_getitem_ints df_clustered "Cluster";
  routes_loop df_clustered lat_col lon_col (sorted (unique labels)) [].

End Pipeline.

(** ** The clusterer of the specification *)

Section HotspotClusterer.
(** The seeding strategy, from the seed, [k] and the points, and the
    iteration cap are left open by the specification. *)
Variable init_centroids : Z -> nat -> list Point -> list Point.
Variable max_iter : nat.

(** Modelled from the spec: the squared Euclidean distance in
    [(lat, lon)] space. *)
Definition sq_dist (p c : Point) : R :=
  ((p.1 - c.1) ^ 2 + (p.2 - c.2) ^ 2)%R.

(** Modelled from the spec: the index of the centroid nearest to [p];
    the strict comparison keeps the lowest index among ties. *)
Fixpoint nearest_centroid (p : Point) (i : Z) (centroids : list Point)
    (best : Z) (best_dist : xfloat) : Z :=
  match centroids with
  | [] => best
  | c :: rest =>
      if float_lt (sq_dist p c) best_dist
      then nearest_centroid p (i + 1) rest i (Fin (sq_dist p c))
      else nearest_centroid p (i + 1) rest best best_dist
  end.

(** Modelled from the spec: the cluster a point is assigned to. *)
Definition assign (centroids : list Point) (p : Point) : Z :=
  nearest_centroid p 0 centroids 0 Inf.

(** Modelled from the spec: the arithmetic mean. *)
Definition mean (xs : list R) : R :=
  (foldr Rplus 0 xs / INR (length xs))%R.

(** Modelled from the spec: the centroid of cluster [c], the mean of the
    coordinates of its members. *)
Definition centroid_of (labels : list Z) (coords : list Point) (c : Z)
    : Point :=
  let members := rows_where labels c coords in
  (mean members.*1, mean members.*2).

(** Modelled from the spec: the centroids of the clusters [0..k-1]. *)
Definition recompute (k : nat) (labels : list Z) (coords : list Point)
    : list Point :=
  (fun c => centroid_of labels coords (Z.of_nat c)) <$> seq 0 k.

(** Modelled from the spec: Lloyd's iterations: assign, recompute, and
    stop when no point changes cluster or the cap is reached. *)
Fixpoint lloyd (cap : nat) (k : nat) (coords : list Point)
    (centroids : list Point) (previous : option (list Z))
    : list Z * list Point :=
  let labels := assign centroids <$> coords in
  let centroids' := recompute k labels coords in
  if decide (previous = Some labels) then (labels, centroids')
  else
    match cap with
    | O => (labels, centroids')
    | S cap' => lloyd cap' k coords centroids' (Some labels)
    end.

(** Modelled from the spec: the Hotspot Clusterer of section 4.2, which
    stands for scikit-learn's [KMeans] ([fit_predict] and
    [cluster_centers_]), a library that is not part of the sources.  It
    rejects [k > n], [k < 1] and an empty point set with
    [InvalidParameter], and otherwise runs Lloyd's iterations from the
    seeded centroids. *)
Definition hotspot_clusterer : estimator := fun n_clusters coords =>
  if bool_decide ((Z.of_nat (length coords) < n_clusters)%Z
                  \/ (n_clusters < 1)%Z \/ length coords = 0)
  then Raise InvalidParameter
  else
    let k := Z.to_nat n_clusters in
    Ok (lloyd (Nat.pred max_iter) k coords (init_centroids 42 k coords) None).

End HotspotClusterer.

(** ** The demonstration of the source *)

(** The frame built under [__main__]. *)
Definition demo_frame : DataFrame :=
  mkDataFrame 6
    (<["Latitude" := FloatCol [12.97; 12.98; 13.01; 19.07; 19.08; 28.61]%R]>
     (<["Longitude" := FloatCol [77.59; 77.60; 77.58; 72.87; 72.88; 77.21]%R]>
      (<["Waste_Tons" := IntCol [5; 6; 4; 8; 7; 9]%Z]> ∅))).

Definition demo_heap : heap := fun _ => demo_frame.

(** Modelled from the spec: one deterministic seeding, the first [k]
    points, to run the clusterer on the demonstration. *)
Definition first_points (seed : Z) (k : nat) (coords : list Point)
    : list Point :=
  take k coords.

(** Modelled from the spec: the clusterer with that seeding and a cap of
    300 iterations. *)
Definition demo_KMeans : estimator := hotspot_clusterer first_points 300.


(** ** The explanation endpoint of [backend/api.py] *)

(** What a handler raises: an [HTTPException] with its status code and
    detail, or another exception, given by its [str]. *)
Inductive raised : Type :=
| HTTPException (status_code : Z) (detail : string)
| OtherException (message : string).

Inductive attempt (A : Type) : Type :=
| Done (a : A)
| Failed (e : raised).
Arguments Done {A} a.
Arguments Failed {A} e.

#[global] Instance attempt_ret : MRet attempt := fun A a => Done a.
#[global] Instance attempt_bind : MBind attempt := fun A B k r =>
  match r with
  | Done a => k a
  | Failed e => Failed e
  end.

Section ExplainEndpoint.
(** The explainer class of [explainability/shap_explainer.py] works on
    files, joblib and shap: its constructor and its two text summaries
    are parameters, each giving a value or the [str] of the exception it
    raises.  [http_str] is the [str] of an [HTTPException]. *)
Variable Explainer : Type.
Variable SHAPExplainer : string -> string -> list string -> string + Explainer.
Variable global_text_summary : Explainer -> string + string.
Variable local_text_summary : Explainer -> Z -> string + string.
Variable http_str : Z -> string -> string.

(** A call into the explainer. *)
Definition call {A} (r : string + A) : attempt A :=
  match r with
  | inl message => Failed (OtherException message)
  | inr a => Done a
  end.

(** [str(e)] *)
Definition str_raised (e : raised) : string :=
  match e with
  | HTTPException status_code detail => http_str status_code detail
  | OtherException message => message
  end.

(** The body of the [try] in [explain_shap]; the result is the pair of
    ["global_summary"] and ["local_summary"]. *)
Definition explain_shap_try (module : string) (index : Z)
    : attempt (string * string) :=
  explainer ←
    (if decide (module = "uhi") then
       call (SHAPExplainer "uhi_random_forest.pkl" "uhi_clean.csv"
               ["LST"; "NDVI"; "NDBI"; "Albedo"; "LULC"])
     else if decide (module = "flood") then
       call (SHAPExplainer "flood_random_forest.pkl" "flood_clean.csv"
               ["PopulationScore"; "WetlandLoss"; "InadequatePlanning";
                "PoliticalFactors"])
     else if decide (module = "plastic") then
       call (SHAPExplainer "plastic_random_forest.pkl" "plastic_clean.csv"
               ["Country"; "Main_Sources"; "Coastal_Waste_Risk";
                "Total_Plastic_Waste_MT"; "Per_Capita_Waste_KG";
                "Recycling_Rate"])
     else Failed (HTTPException 400 "Invalid module name"));
  global_summary ← call (global_text_summary explainer);
  local_summary ← call (local_text_summary explainer index);
  mret (global_summary, local_summary).

(** [explain_shap(module, index)]: [except Exception as e] catches what
    the body raises, an [HTTPException] included. *)
Definition explain_shap (module : string) (index : Z)
    : attempt (string * string) :=
  match explain_shap_try module index with
  | Done response => Done response
  | Failed e => Failed (HTTPException 500 (str_raised e))
  end.

End ExplainEndpoint.

(** ** Predicates of the statements *)

(** What the scan from [last] has found after the first [m] points of
    [pts]: nothing when they are all visited, otherwise the first unvisited
    index whose distance from [last] is least. *)
Definition scan_found (last : Point) (visited : list Z) (pts : list Point)
    (m : nat) (st : scan_state) : Prop :=
  match next_idx st with
  | None =>
      min_dist st = Inf /\
      forall j, j < m -> j < length pts -> Z.of_nat j ∈ visited
  | Some i =>
      exists j p,
        i = Z.of_nat j /\ j < m /\ pts !! j = Some p /\ (i ∉ visited) /\
        min_dist st = Fin (dist_to last p) /\
        forall j' p', j' < m -> pts !! j' = Some p' ->
          Z.of_nat j' ∉ visited ->
          (dist_to last p <= dist_to last p')%R /\
          (j' < j -> (dist_to last p < dist_to last p')%R)
  end.

(** [i] is the choice of the greedy rule from [last]: an unvisited index
    at least distance, and the lowest such index. *)
Definition nearest_unvisited (points : list Point) (visited : list Z)
    (last : Point) (i : Z) : Prop :=
  exists j p,
    i = Z.of_nat j /\ points !! j = Some p /\ (i ∉ visited) /\
    forall j' p', points !! j' = Some p' -> Z.of_nat j' ∉ visited ->
      (dist_to last p <= dist_to last p')%R /\
      (dist_to last p' = dist_to last p -> j <= j').

(** Every index after the first was chosen by the greedy rule from the
    stop before it, among the indices not visited until then. *)
Definition greedy_trace (points : list Point) (visited : list Z)
    (route : list Point) : Prop :=
  forall k i last,
    visited !! S k = Some i -> route !! k = Some last ->
    nearest_unvisited points (take (S k) visited) last i.

Record route_inv (points : list Point) (visited : list Z)
    (route : list Point) : Prop := RouteInv {
  inv_range : Forall (fun v => (0 <= v < Z.of_nat (length points))%Z) visited;
  inv_nodup : NoDup visited;
  inv_route : Forall2 (fun v p => points !! Z.to_nat v = Some p) visited route;
  inv_nonempty : visited <> [];
  inv_greedy : greedy_trace points visited route
}.

(** One entry of the result: the label of the cluster and the route that
    the route builder gives from index 0 on the rows of that cluster. *)
Definition cluster_entry (labels : list Z) (coords : list Point)
    (cluster_id : Z) (entry : string * list Point) : Prop :=
  entry.1 = cluster_label cluster_id /\
  optimize_route (rows_where labels cluster_id coords) 0 = Ok entry.2.

(** ** Predicates of the further properties *)

(** The state of the loop from any start index that Python accepts: no
    index occurs twice, the indices after the first are indices of the
    list, each stop is the point of its index, and every index after the
    first was the choice of the greedy rule. *)
Record stops_inv (points : list Point) (visited : list Z)
    (route : list Point) : Prop := StopsInv {
  stops_nodup : NoDup visited;
  stops_range :
    Forall (fun v => (0 <= v < Z.of_nat (length points))%Z) (tail visited);
  stops_route : Forall2 (fun v p => py_getitem points v = Ok p) visited route;
  stops_nonempty : visited <> [];
  stops_greedy : greedy_trace points visited route
}.

(** Each stop is followed by a stop that is at least distance from it
    among all the later stops. *)
Definition greedy_ordered (route : list Point) : Prop :=
  forall k m q q' p,
    route !! k = Some q -> route !! S k = Some q' ->
    S k <= m -> route !! m = Some p ->
    (dist_to q q' <= dist_to q p)%R.



(** ** Sample data *)

(** Two antipodal points on the equator. *)
Definition antipodes : list Point := [(0, 0); (0, 180)]%R.

(** The coordinate rows of the demonstration frame. *)
Definition demo_coords : list Point :=
  [(12.97, 77.59); (12.98, 77.60); (13.01, 77.58);
   (19.07, 72.87); (19.08, 72.88); (28.61, 77.21)]%R.

(** The three points of the Bengaluru cluster. *)
Definition bengaluru : list Point :=
  [(12.97, 77.59); (12.98, 77.60); (13.01, 77.58)]%R.

(** * Properties *)

(** ** Distance primitive *)

Section DistanceFacts.
Local Open Scope R_scope.

Lemma sin_half_sqr (x : R) : sin (x / 2) ^ 2 = (1 - cos x) / 2.
Proof.
  replace (cos x) with (cos (2 * (x / 2))) by (f_equal; lra).
  rewrite cos_2a_sin. lra.
Qed.

Lemma sin_sqr_bounds (x : R) : 0 <= sin x ^ 2 <= 1.
Proof.
  pose proof (sin2_cos2 x) as H. unfold Rsqr in H.
  split; nra.
Qed.

(** [math.sqrt] and [math.asin] are called inside their domains: the
    argument of [sqrt] lies between 0 and 1 for all angles. *)
Lemma hav_a_bounds (lat1 lon1 lat2 lon2 : R) :
  0 <= hav_a lat1 lon1 lat2 lon2 <= 1.
Proof.
  unfold hav_a. cbv zeta.
  rewrite (sin_half_sqr (lat2 - lat1)), cos_minus.
  pose proof (sin_sqr_bounds ((lon2 - lon1) / 2)) as Hs.
  set (s := sin ((lon2 - lon1) / 2) ^ 2) in *.
  pose proof (sin2_cos2 lat1) as H1. pose proof (sin2_cos2 lat2) as H2.
  unfold Rsqr in H1, H2.
  set (c1 := cos lat1) in *. set (s1 := sin lat1) in *.
  set (c2 := cos lat2) in *. set (s2 := sin lat2) in *.
  assert (Hm : 0 <= c1 * c1 + c2 * c2 - 2 * (1 - 2 * s) * (c1 * c2)).
  { assert (Ht : (1 - 2 * s) * (1 - 2 * s) <= 1) by nra.
    pose proof (Rle_0_sqr (c1 - (1 - 2 * s) * c2)) as Hq. unfold Rsqr in Hq.
    nra. }
  assert (Hp : 0 <= c1 * c1 + c2 * c2 + 2 * (1 - 2 * s) * (c1 * c2)).
  { assert (Ht : (1 - 2 * s) * (1 - 2 * s) <= 1) by nra.
    pose proof (Rle_0_sqr (c1 + (1 - 2 * s) * c2)) as Hq. unfold Rsqr in Hq.
    nra. }
  pose proof (Rle_0_sqr (s1 - s2)) as Hd. unfold Rsqr in Hd.
  pose proof (Rle_0_sqr (s1 + s2)) as He. unfold Rsqr in He.
  split; nra.
Qed.

Lemma sqrt_hav_a_bounds (lat1 lon1 lat2 lon2 : R) :
  -1 <= sqrt (hav_a lat1 lon1 lat2 lon2) <= 1.
Proof.
  destruct (hav_a_bounds lat1 lon1 lat2 lon2) as [H0 H1].
  split.
  - pose proof (sqrt_pos (hav_a lat1 lon1 lat2 lon2)). lra.
  - rewrite <- sqrt_1. by apply sqrt_le_1_alt.
Qed.

Lemma hav_a_sym (lat1 lon1 lat2 lon2 : R) :
  hav_a lat1 lon1 lat2 lon2 = hav_a lat2 lon2 lat1 lon1.
Proof.
  unfold hav_a. cbv zeta.
  replace ((lat1 - lat2) / 2) with (- ((lat2 - lat1) / 2)) by lra.
  replace ((lon1 - lon2) / 2) with (- ((lon2 - lon1) / 2)) by lra.
  rewrite !sin_neg. ring.
Qed.

(** C8: the distance is symmetric:
    [haversine(A, B) == haversine(B, A)] for all coordinate pairs. *)
Theorem haversine_symmetric (lat1 lon1 lat2 lon2 : R) :
  haversine lat1 lon1 lat2 lon2 = haversine lat2 lon2 lat1 lon1.
Proof.
  unfold haversine. cbv zeta. by rewrite hav_a_sym.
Qed.

Lemma hav_a_same (lat lon : R) : hav_a lat lon lat lon = 0.
Proof.
  unfold hav_a. cbv zeta. rewrite !Rminus_diag.
  replace (0 / 2) with 0 by lra. rewrite sin_0. ring.
Qed.

(** C9: the distance from a point to itself is 0:
    [haversine(A, A) == 0] for every coordinate pair. *)
Theorem haversine_identity (lat lon : R) :
  haversine lat lon lat lon = 0.
Proof.
  unfold haversine. cbv zeta.
  rewrite hav_a_same, sqrt_0, asin_0. ring.
Qed.

End DistanceFacts.

(** ** Route builder *)

Lemma route_loop_eq (points : list Point) (visited : list Z)
    (route : list Point) :
  route_loop points visited route =
    if decide (length visited < length points) then
      match next_stop points visited route with
      | Ok (i, p) => route_loop points (visited ++ [i]) (route ++ [p])
      | Raise e => Raise e
      end
    else Ok (visited, route).
Proof.
  rewrite route_loop_equation_1.
  destruct (decide (length visited < length points)); simpl; [|done].
  destruct (next_stop points visited route) as [[i p]|e]; done.
Qed.

(** *** Subscripts *)

Lemma py_getitem_nat {A} (l : list A) (j : nat) (x : A) :
  l !! j = Some x -> py_getitem l (Z.of_nat j) = Ok x.
Proof.
  intros Hj. pose proof (lookup_lt_Some _ _ _ Hj) as Hlt.
  unfold py_getitem.
  destruct (Z.ltb_spec (Z.of_nat j) 0) as [?|_]; [lia|].
  destruct (Z.leb_spec 0 (Z.of_nat j)) as [_|?]; [|lia].
  destruct (Z.ltb_spec (Z.of_nat j) (Z.of_nat (length l))) as [_|?]; [|lia].
  simpl. by rewrite Nat2Z.id, Hj.
Qed.

Lemma py_getitem_last {A} (l : list A) (x : A) :
  py_getitem (l ++ [x]) (-1) = Ok x.
Proof.
  unfold py_getitem. rewrite length_app. simpl length.
  destruct (Z.ltb_spec (-1) 0) as [_|?]; [|lia].
  destruct (Z.leb_spec 0 (-1 + Z.of_nat (length l + 1))) as [_|?]; [|lia].
  destruct (Z.ltb_spec (-1 + Z.of_nat (length l + 1))
              (Z.of_nat (length l + 1))) as [_|?]; [|lia].
  simpl.
  replace (Z.to_nat (-1 + Z.of_nat (length l + 1))) with (length l) by lia.
  by rewrite list_lookup_middle.
Qed.

Lemma py_getitem_out_of_range {A} (l : list A) (k : Z) :
  (k < - Z.of_nat (length l) \/ Z.of_nat (length l) <= k)%Z ->
  py_getitem l k = Raise IndexError.
Proof.
  intros Hk. unfold py_getitem.
  destruct (Z.ltb_spec k 0).
  - destruct (Z.leb_spec 0 (k + Z.of_nat (length l))); [|done].
    destruct (Z.ltb_spec (k + Z.of_nat (length l)) (Z.of_nat (length l)));
      [lia|done].
  - destruct (Z.leb_spec 0 k); [|done].
    destruct (Z.ltb_spec k (Z.of_nat (length l))); [lia|done].
Qed.

Lemma py_getitem_negative {A} (l : list A) (k : Z) :
  (- Z.of_nat (length l) <= k < 0)%Z ->
  py_getitem l k = py_getitem l (k + Z.of_nat (length l)).
Proof.
  intros Hk. unfold py_getitem.
  destruct (Z.ltb_spec k 0) as [_|?]; [|lia].
  destruct (Z.ltb_spec (k + Z.of_nat (length l)) 0) as [?|_]; [lia|].
  done.
Qed.

(** *** The inner loop *)

Section Scan.
Variables (last : Point) (visited : list Z) (pts : list Point).

Lemma scan_found_init : scan_found last visited pts 0 scan_init.
Proof. split; [done|]. intros j Hj. lia. Qed.

Lemma scan_step_found (m : nat) (p : Point) (st : scan_state) :
  pts !! m = Some p ->
  scan_found last visited pts m st ->
  scan_found last visited pts (S m) (scan_step last visited (Z.of_nat m) p st).
Proof.
  intros Hp Hst. unfold scan_step.
  case_bool_decide as Hvis.
  - (* continue *)
    unfold scan_found in *. destruct (next_idx st) as [i|].
    + destruct Hst as (j & q & -> & Hj & Hq & Hnv & Hmin & Hleast).
      exists j, q. split_and!; try done; try lia.
      intros j' p' Hj' Hp' Hnv'.
      destruct (decide (j' = m)) as [->|]; [done|].
      apply (Hleast j' p'); try done; lia.
    + destruct Hst as [Hmin Hall]. split; [done|].
      intros j Hj Hlen. destruct (decide (j = m)) as [->|]; [done|].
      apply Hall; lia.
  - unfold scan_found in Hst. destruct st as [md ni]. simpl in *.
    destruct ni as [i|].
    + destruct Hst as (j & q & -> & Hj & Hq & Hnv & -> & Hleast).
      simpl. case_bool_decide as Hlt.
      * (* a strictly nearer point *)
        exists m, p. simpl. split_and!; try done; try lia.
        intros j' p' Hj' Hp' Hnv'.
        destruct (decide (j' = m)) as [->|].
        -- replace p' with p by congruence. split; [lra|lia].
        -- destruct (Hleast j' p') as [Hle _]; try done; try lia.
           split; [lra|intros _; lra].
      * exists j, q. simpl. split_and!; try done; try lia.
        intros j' p' Hj' Hp' Hnv'.
        destruct (decide (j' = m)) as [->|].
        -- replace p' with p by congruence. split; [lra|lia].
        -- apply (Hleast j' p'); try done; lia.
    + destruct Hst as [-> Hall]. simpl.
      exists m, p. simpl. split_and!; try done; try lia.
      intros j' p' Hj' Hp' Hnv'.
      destruct (decide (j' = m)) as [->|].
      * replace p' with p by congruence. split; [lra|lia].
      * exfalso. apply Hnv', Hall; [lia|]. by eapply lookup_lt_Some.
Qed.

Lemma scan_found_from (ps : list Point) (m : nat) (st : scan_state) :
  drop m pts = ps ->
  scan_found last visited pts m st ->
  scan_found last visited pts (length pts) (scan last visited (Z.of_nat m) ps st).
Proof.
  revert m st. induction ps as [|p ps IH]; intros m st Hdrop Hst.
  - simpl.
    assert (Hm : length pts <= m).
    { assert (length (drop m pts) = 0) as Hlen by by rewrite Hdrop.
      rewrite length_drop in Hlen. lia. }
    unfold scan_found in *. destruct (next_idx st) as [i|].
    + destruct Hst as (j & q & Hi & Hj & Hq & Hnv & Hmin & Hleast).
      exists j, q. split_and!; try done.
      * by eapply lookup_lt_Some.
      * intros j' p' Hj' Hp' Hnv'. apply (Hleast j' p'); try done.
        apply lookup_lt_Some in Hp'. lia.
    + destruct Hst as [Hmin Hall]. split; [done|].
      intros j _ Hj. apply Hall; [lia|done].
  - simpl.
    assert (Hp : pts !! m = Some p).
    { rewrite <- (Nat.add_0_r m), <- lookup_drop, Hdrop. done. }
    replace (Z.of_nat m + 1)%Z with (Z.of_nat (S m)) by lia.
    apply IH.
    + replace (S m) with (m + 1) by lia.
      by rewrite <- drop_drop, Hdrop.
    + by apply scan_step_found.
Qed.

Lemma scan_found_all :
  scan_found last visited pts (length pts) (scan last visited 0 pts scan_init).
Proof. apply (scan_found_from pts 0); [done|apply scan_found_init]. Qed.

End Scan.

(** *** The outer loop *)

Lemma indices_covered (n : nat) (visited : list Z) :
  (forall j, j < n -> Z.of_nat j ∈ visited) -> n <= length visited.
Proof.
  intros Hall.
  assert (Hsub : (Z.of_nat <$> seq 0 n) ⊆+ visited).
  { apply NoDup_submseteq.
    - apply NoDup_fmap; [apply _|apply NoDup_seq].
    - intros x (j & -> & Hj%elem_of_seq)%list_elem_of_fmap. apply Hall. lia. }
  apply submseteq_length in Hsub.
  by rewrite length_fmap, length_seq in Hsub.
Qed.

Lemma indices_bounded (n : nat) (visited : list Z) :
  Forall (fun v => (0 <= v < Z.of_nat n)%Z) visited -> NoDup visited ->
  visited ⊆+ (Z.of_nat <$> seq 0 n).
Proof.
  intros Hrange Hnd. apply NoDup_submseteq; [done|].
  intros x Hx. rewrite Forall_forall in Hrange. apply Hrange in Hx.
  apply list_elem_of_fmap. exists (Z.to_nat x). split; [lia|].
  apply elem_of_seq. lia.
Qed.

Lemma next_stop_inv (points : list Point) (visited : list Z)
    (route : list Point) :
  route_inv points visited route ->
  length visited < length points ->
  exists i p,
    next_stop points visited route = Ok (i, p) /\
    route_inv points (visited ++ [i]) (route ++ [p]).
Proof.
  intros [Hrange Hnd Hroute Hne Hgreedy] Hlt.
  pose proof (Forall2_length _ _ _ Hroute) as Hlen.
  destruct route as [|last route _] using rev_ind.
  { destruct visited; [done|]. simpl in Hlen. lia. }
  unfold next_stop. rewrite py_getitem_last. simpl.
  pose proof (scan_found_all last visited points) as Hscan.
  unfold scan_found in Hscan.
  destruct (next_idx (scan last visited 0 points scan_init)) as [i|].
  - destruct Hscan as (j & p & -> & Hj & Hp & Hnv & _ & Hleast).
    exists (Z.of_nat j), p. rewrite (py_getitem_nat _ _ _ Hp). simpl.
    split; [done|]. split.
    + apply Forall_app. split; [done|]. apply Forall_singleton. lia.
    + apply NoDup_app. split; [done|]. split; [|apply NoDup_singleton].
      intros x Hx ->%list_elem_of_singleton. done.
    + apply Forall2_app; [done|]. constructor; [|done].
      by rewrite Nat2Z.id.
    + by destruct visited.
    + intros k i prev Hi Hprev.
      destruct (decide (S k < length visited)) as [Hk|Hk].
      * rewrite lookup_app_l in Hi by done.
        rewrite lookup_app_l in Hprev by lia.
        rewrite take_app_le by lia. by eapply Hgreedy.
      * apply lookup_lt_Some in Hi as Hk'. rewrite length_app in Hk'.
        simpl in Hk'. assert (S k = length visited) as Hk'' by lia.
        rewrite Hk'' in Hi. rewrite list_lookup_middle in Hi by done.
        rewrite length_app in Hlen. simpl in Hlen.
        assert (k = length route) as Hkr by lia.
        rewrite lookup_app_l in Hprev by (rewrite length_app; simpl; lia).
        rewrite list_lookup_middle in Hprev by done.
        injection Hi as <-. injection Hprev as <-.
        rewrite Hk'', take_app_length.
        exists j, p. split_and!; try done.
        intros j' p' Hp' Hnv'.
        destruct (Hleast j' p') as [Hle Hfirst]; try done.
        { by eapply lookup_lt_Some. }
        split; [done|]. intros Heq.
        destruct (decide (j' < j)) as [Hjj|]; [|lia].
        apply Hfirst in Hjj. lra.
  - exfalso. destruct Hscan as [_ Hall].
    assert (length points <= length visited); [|lia].
    apply indices_covered. intros j Hj. by apply Hall.
Qed.

Lemma route_loop_inv (points : list Point) (k : nat) :
  forall visited route,
    length points - length visited = k ->
    route_inv points visited route ->
    exists visited' route',
      route_loop points visited route = Ok (visited', route') /\
      route_inv points visited' route' /\
      length points <= length visited' /\
      route `prefix_of` route'.
Proof.
  induction k as [|k IH]; intros visited route Hk Hinv;
    rewrite route_loop_eq.
  - destruct (decide (length visited < length points)); [lia|].
    exists visited, route. split_and!; try done. lia.
  - destruct (decide (length visited < length points)) as [Hlt|]; [|lia].
    destruct (next_stop_inv _ _ _ Hinv Hlt) as (i & p & -> & Hinv').
    destruct (IH (visited ++ [i]) (route ++ [p])) as (v' & r' & Hloop & ? & ? & Hpre);
      [rewrite length_app; simpl; lia|done|].
    exists v', r'. split_and!; try done.
    etrans; [|done]. by apply prefix_app_r.
Qed.

Lemma omap_lookup_seq {A} (pre l : list A) :
  omap (fun v => (pre ++ l) !! Z.to_nat v)
       (Z.of_nat <$> seq (length pre) (length l)) = l.
Proof.
  revert pre. induction l as [|x l IH]; intros pre; [done|].
  simpl. rewrite Nat2Z.id, list_lookup_middle by done. f_equal.
  specialize (IH (pre ++ [x])).
  rewrite <- app_assoc, length_app in IH. simpl in IH.
  by rewrite Nat.add_1_r in IH.
Qed.

(** At the exit of the loop the visited indices are all the indices, each
    once, and the route lists the points in that order. *)
Lemma route_inv_permutation (points : list Point) (visited : list Z)
    (route : list Point) :
  route_inv points visited route ->
  length points <= length visited ->
  length route = length points /\ route ≡ₚ points.
Proof.
  intros [Hrange Hnd Hroute _ _] Hlen.
  pose proof (indices_bounded _ _ Hrange Hnd) as Hsub.
  assert (Hperm : visited ≡ₚ Z.of_nat <$> seq 0 (length points)).
  { apply submseteq_length_Permutation; [done|].
    by rewrite length_fmap, length_seq. }
  assert (Hr : route = omap (fun v => points !! Z.to_nat v) visited).
  { clear -Hroute. induction Hroute as [|v p vs ps Hv _ IH]; [done|].
    simpl. rewrite Hv. by f_equal. }
  assert (Hp : points = omap (fun v => points !! Z.to_nat v)
                          (Z.of_nat <$> seq 0 (length points))).
  { symmetry. apply (omap_lookup_seq [] points). }
  split.
  - apply Forall2_length in Hroute. apply Permutation_length in Hperm.
    rewrite length_fmap, length_seq in Hperm. lia.
  - rewrite Hr, Hp at 1. by rewrite Hperm.
Qed.

(** *** [optimize_route] *)

Lemma route_inv_init (points : list Point) (j : nat) (p : Point) :
  points !! j = Some p -> route_inv points [Z.of_nat j] [p].
Proof.
  intros Hp. pose proof (lookup_lt_Some _ _ _ Hp). split.
  - apply Forall_singleton. lia.
  - apply NoDup_singleton.
  - constructor; [|done]. by rewrite Nat2Z.id.
  - done.
  - intros k i prev Hi _. destruct k; done.
Qed.

(** A run from a start index inside the list: the loop ends normally, and
    its final state satisfies the invariant and has visited every index. *)
Lemma optimize_route_run (points : list Point) (start_index : Z) :
  (0 <= start_index < Z.of_nat (length points))%Z ->
  exists p visited route,
    points !! Z.to_nat start_index = Some p /\
    route_loop points [start_index] [p] = Ok (visited, route) /\
    optimize_route points start_index = Ok route /\
    route_inv points visited route /\
    length points <= length visited /\
    [p] `prefix_of` route.
Proof.
  intros Hstart.
  destruct (lookup_lt_is_Some_2 points (Z.to_nat start_index)) as [p Hp]; [lia|].
  pose proof (route_inv_init _ _ _ Hp) as Hinv.
  rewrite Z2Nat.id in Hinv by lia.
  destruct (route_loop_inv points _ _ _ eq_refl Hinv)
    as (visited & route & Hloop & Hinv' & Hlen & Hpre).
  exists p, visited, route. split_and!; try done.
  unfold optimize_route.
  rewrite bool_decide_eq_false_2 by lia.
  rewrite <- (Z2Nat.id start_index) at 1 by lia.
  rewrite (py_getitem_nat _ _ _ Hp). simpl. by rewrite Hloop.
Qed.

(** C1: for a non-empty list and a start index [0 <= i < n],
    [optimize_route] returns a list of length [n] that is a permutation of
    the input and whose first element is the point at index [i]. *)
Theorem optimize_route_permutation (points : list Point) (start_index : Z) :
  points <> [] ->
  (0 <= start_index < Z.of_nat (length points))%Z ->
  exists route,
    optimize_route points start_index = Ok route /\
    length route = length points /\
    route ≡ₚ points /\
    head route = points !! Z.to_nat start_index.
Proof.
  intros _ Hstart.
  destruct (optimize_route_run points start_index Hstart)
    as (p & visited & route & Hp & _ & Hrun & Hinv & Hlen & [rest ->]).
  destruct (route_inv_permutation _ _ _ Hinv Hlen) as [Hl Hperm].
  exists ([p] ++ rest). by rewrite Hp.
Qed.

(** C2: at every step the index appended next is, among the indices not
    yet visited, one whose point is at least haversine distance from the
    stop added last, and the lowest index among those at that distance. *)
Theorem optimize_route_greedy (points : list Point) (start_index : Z) :
  points <> [] ->
  (0 <= start_index < Z.of_nat (length points))%Z ->
  exists p visited route,
    py_getitem points start_index = Ok p /\
    route_loop points [start_index] [p] = Ok (visited, route) /\
    optimize_route points start_index = Ok route /\
    length visited = length points /\
    Forall2 (fun v q => points !! Z.to_nat v = Some q) visited route /\
    forall k i last,
      visited !! S k = Some i -> route !! k = Some last ->
      exists j q,
        i = Z.of_nat j /\ points !! j = Some q /\
        (i ∉ take (S k) visited) /\
        forall j' q',
          points !! j' = Some q' -> Z.of_nat j' ∉ take (S k) visited ->
          (dist_to last q <= dist_to last q')%R /\
          (dist_to last q' = dist_to last q -> j <= j').
Proof.
  intros _ Hstart.
  destruct (optimize_route_run points start_index Hstart)
    as (p & visited & route & Hp & Hloop & Hrun & Hinv & Hlen & _).
  exists p, visited, route. split_and!; try done.
  - rewrite <- (Z2Nat.id start_index) by lia. by apply py_getitem_nat.
  - destruct (route_inv_permutation _ _ _ Hinv Hlen) as [Hl _].
    destruct Hinv as [_ _ Hroute _ _]. apply Forall2_length in Hroute. lia.
  - by destruct Hinv.
  - destruct Hinv as [_ _ _ _ Hgreedy]. exact Hgreedy.
Qed.

(** C7: on the empty list [optimize_route] returns the empty route, for
    every start index. *)
Theorem optimize_route_empty (start_index : Z) :
  optimize_route [] start_index = Ok [].
Proof. reflexivity. Qed.

(** *** A start index that counts from the end *)

Lemma dist_to_same (p : Point) : dist_to p p = 0%R.
Proof.
  unfold dist_to, haversine. cbv zeta.
  rewrite hav_a_same, sqrt_0, asin_0. lra.
Qed.

Lemma dist_antipodes : dist_to (0, 180)%R (0, 0)%R = (6371 * PI)%R.
Proof.
  unfold dist_to, haversine, hav_a, radians. cbv zeta. simpl fst. simpl snd.
  replace ((0 * (PI / 180) - 0 * (PI / 180)) / 2)%R with 0%R by lra.
  replace ((0 * (PI / 180) - 180 * (PI / 180)) / 2)%R with (- (PI / 2))%R by lra.
  replace (0 * (PI / 180))%R with 0%R by lra.
  rewrite sin_neg, sin_0, cos_0, sin_PI2.
  replace (0 ^ 2 + 1 * 1 * (- (1)) ^ 2)%R with 1%R by lra.
  rewrite sqrt_1, asin_1. lra.
Qed.

Lemma antipodes_from_last :
  route_loop antipodes [(-1)%Z] [(0, 180)%R]
  = Ok ([(-1)%Z; 1%Z], [(0, 180); (0, 180)]%R).
Proof.
  rewrite route_loop_eq.
  destruct (decide (length [(-1)%Z] < length antipodes)) as [_|Hn];
    [|simpl in Hn; lia].
  assert (Hnext : next_stop antipodes [(-1)%Z] [(0, 180)%R]
                  = Ok (1%Z, (0, 180)%R)).
  { unfold next_stop.
    assert (Hlast : py_getitem [(0, 180)%R] (-1) = Ok (0, 180)%R)
      by apply (py_getitem_last [] (0, 180)%R).
    rewrite Hlast. simpl mbind.
    unfold result_bind, antipodes, scan, scan_step, scan_init.
    rewrite !bool_decide_eq_false_2 by (rewrite list_elem_of_singleton; lia).
    cbn [float_lt min_dist next_idx].
    rewrite dist_to_same, dist_antipodes.
    rewrite bool_decide_eq_true_2 by (pose proof PI_RGT_0; lra).
    cbn [next_idx]. by rewrite (py_getitem_nat _ 1 (0, 180)%R). }
  rewrite Hnext. rewrite route_loop_eq.
  destruct (decide (length ([(-1)%Z] ++ [1%Z]) < length antipodes)) as [Hn|_];
    [simpl in Hn; lia|done].
Qed.

Lemma optimize_route_antipodes_last :
  optimize_route antipodes (-1) = Ok [(0, 180); (0, 180)]%R.
Proof.
  unfold optimize_route.
  rewrite bool_decide_eq_false_2 by (simpl; lia).
  assert (Hlast : py_getitem antipodes (-1) = Ok (0, 180)%R)
    by apply (py_getitem_last [(0, 0)%R] (0, 180)%R).
  rewrite Hlast. simpl mbind. unfold result_bind. by rewrite antipodes_from_last.
Qed.

(** From index 0 the route visits the two points in their order. *)
Example optimize_route_antipodes_first :
  optimize_route antipodes 0 = Ok antipodes.
Proof.
  unfold optimize_route.
  rewrite bool_decide_eq_false_2 by (simpl; lia).
  assert (Hfirst : py_getitem antipodes 0 = Ok (0, 0)%R)
    by apply (py_getitem_nat antipodes 0 (0, 0)%R eq_refl).
  rewrite Hfirst. simpl mbind. unfold result_bind.
  rewrite route_loop_eq.
  destruct (decide (length [0%Z] < length antipodes)) as [_|Hn];
    [|simpl in Hn; lia].
  assert (Hnext : next_stop antipodes [0%Z] [(0, 0)%R]
                  = Ok (1%Z, (0, 180)%R)).
  { unfold next_stop.
    assert (Hlast : py_getitem [(0, 0)%R] (-1) = Ok (0, 0)%R)
      by apply (py_getitem_last [] (0, 0)%R).
    rewrite Hlast. simpl mbind. reflexivity. }
  rewrite Hnext. rewrite route_loop_eq.
  destruct (decide (length ([0%Z] ++ [1%Z]) < length antipodes)) as [Hn|_];
    [simpl in Hn; lia|done].
Qed.

Lemma antipodes_distinct : (0, 0)%R <> ((0, 180)%R : Point).
Proof. intros [=H]. lra. Qed.

(** C10: there is a list of two points and a negative start index in
    [-n, -1] on which [optimize_route] returns normally a list that is not
    a permutation of the input: a point of the input is missing and the
    point at the corresponding positive index occurs twice. *)
Theorem optimize_route_negative_start_duplicates :
  exists (points : list Point) (start_index : Z) (route : list Point),
    2 <= length points /\
    (- Z.of_nat (length points) <= start_index < 0)%Z /\
    optimize_route points start_index = Ok route /\
    ~ route ≡ₚ points /\
    (exists p, p ∈ points /\ p ∉ route) /\
    (exists q i j,
       points !! Z.to_nat (start_index + Z.of_nat (length points)) = Some q /\
       i <> j /\ route !! i = Some q /\ route !! j = Some q).
Proof.
  assert (Hmiss : (0, 0)%R ∉ ([(0, 180); (0, 180)]%R : list Point)).
  { intros Hin. rewrite !elem_of_cons, elem_of_nil in Hin.
    destruct Hin as [Hin|[Hin|[]]]; by apply antipodes_distinct. }
  exists antipodes, (-1)%Z, [(0, 180); (0, 180)]%R.
  split_and!.
  - simpl. lia.
  - simpl. lia.
  - simpl. lia.
  - apply optimize_route_antipodes_last.
  - intros Hperm. apply Hmiss. rewrite Hperm. unfold antipodes. set_solver.
  - exists (0, 0)%R. split; [unfold antipodes; set_solver|done].
  - exists (0, 180)%R, 0, 1. done.
Qed.

(** Counterexample to C5 as stated: [-1] is outside [0, n-1], and from it
    [optimize_route] returns a route instead of failing. *)
Lemma optimize_route_negative_start_accepted :
  antipodes <> [] /\
  ~ (0 <= -1 < Z.of_nat (length antipodes))%Z /\
  optimize_route antipodes (-1) = Ok [(0, 180); (0, 180)]%R.
Proof.
  split_and!; [done|lia|apply optimize_route_antipodes_last].
Qed.

(** C5 (amended): on a non-empty list of [n] points [optimize_route] raises
    [IndexError] whenever [start_index >= n] or [start_index < -n], and
    returns a route for every start index in [0, n-1]; the default start
    index is 0. *)
Theorem optimize_route_start_index (points : list Point) (start_index : Z) :
  points <> [] ->
  ((start_index < - Z.of_nat (length points)
    \/ Z.of_nat (length points) <= start_index)%Z ->
   optimize_route points start_index = Raise IndexError) /\
  ((0 <= start_index < Z.of_nat (length points))%Z ->
   is_ok (optimize_route points start_index)) /\
  optimize_route_default points = optimize_route points 0.
Proof.
  intros Hne. split_and!; [| |done].
  - intros Hout. unfold optimize_route.
    rewrite bool_decide_eq_false_2 by (by destruct points).
    by rewrite py_getitem_out_of_range.
  - intros Hin.
    destruct (optimize_route_run points start_index Hin)
      as (_ & _ & route & _ & _ & Hrun & _).
    by exists route.
Qed.

(** ** Hotspot clustering and the pipeline *)

Lemma cluster_hotspots_eq (KMeans : estimator) (df : ref)
    (lat_col lon_col : string) (n_clusters : Z) (σ : heap) :
  cluster_hotspots KMeans df lat_col lon_col n_clusters σ =
    match df_values2 (σ df) lat_col lon_col with
    | Raise e => (Raise e, σ)
    | Ok coords =>
        match KMeans n_clusters coords with
        | Raise e => (Raise e, σ)
        | Ok (labels, centers) =>
            match df_with_column (σ df) "Cluster" (IntCol labels) with
            | Raise e => (Raise e, σ)
            | Ok d' => (Ok (df, centers), <[df := d']> σ)
            end
        end
    end.
Proof.
  unfold cluster_hotspots, mbind, py_bind, df_getitem_values, lift, df_setitem.
  destruct (df_values2 (σ df) lat_col lon_col) as [coords|]; [|done].
  destruct (KMeans n_clusters coords) as [[labels centers]|]; [|done].
  by destruct (df_with_column (σ df) "Cluster" (IntCol labels)).
Qed.

Lemma cluster_hotspots_success (KMeans : estimator) (df : ref)
    (lat_col lon_col : string) (n_clusters : Z) (σ σ' : heap)
    (df_clustered : ref) (centers : list Point) :
  cluster_hotspots KMeans df lat_col lon_col n_clusters σ
    = (Ok (df_clustered, centers), σ') ->
  df_clustered = df /\
  exists coords labels,
    df_values2 (σ df) lat_col lon_col = Ok coords /\
    KMeans n_clusters coords = Ok (labels, centers) /\
    length labels = df_index (σ df) /\
    σ' = <[df := mkDataFrame (df_index (σ df))
                   (<["Cluster" := IntCol labels]> (df_columns (σ df)))]> σ.
Proof.
  rewrite cluster_hotspots_eq.
  destruct (df_values2 (σ df) lat_col lon_col) as [coords|] eqn:Hcoords; [|done].
  destruct (KMeans n_clusters coords) as [[labels centers']|] eqn:Hfit; [|done].
  unfold df_with_column. case_bool_decide as Hlen; [|done].
  intros [= <- <- <-]. split; [done|]. by exists coords, labels.
Qed.

(** C6 (amended): the one effect of [cluster_hotspots] is on the frame it
    was given: it sets the column ["Cluster"] of that frame to the labels
    and returns a reference to the same frame; no other column and no other
    frame changes, and nothing changes when it raises. *)
Theorem cluster_hotspots_effect (KMeans : estimator) (df : ref)
    (lat_col lon_col : string) (n_clusters : Z) (σ : heap) :
  match cluster_hotspots KMeans df lat_col lon_col n_clusters σ with
  | (Ok (df_clustered, centers), σ') =>
      df_clustered = df /\
      exists coords labels,
        df_values2 (σ df) lat_col lon_col = Ok coords /\
        KMeans n_clusters coords = Ok (labels, centers) /\
        df_index (σ' df) = df_index (σ df) /\
        df_columns (σ' df)
          = <["Cluster" := IntCol labels]> (df_columns (σ df)) /\
        forall other, other <> df -> σ' other = σ other
  | (Raise _, σ') => σ' = σ
  end.
Proof.
  rewrite cluster_hotspots_eq.
  destruct (df_values2 (σ df) lat_col lon_col) as [coords|] eqn:Hcoords; [|done].
  destruct (KMeans n_clusters coords) as [[labels centers]|] eqn:Hfit; [|done].
  unfold df_with_column. case_bool_decide; [|done].
  split; [done|]. exists coords, labels.
  rewrite fn_lookup_insert. split_and!; try done.
  intros other Hother. by rewrite fn_lookup_insert_ne.
Qed.

Lemma df_values2_length (d : DataFrame) (lat_col lon_col : string)
    (coords : list Point) :
  df_wf d -> df_values2 d lat_col lon_col = Ok coords ->
  length coords = df_index d.
Proof.
  intros Hwf. unfold df_values2.
  destruct (df_columns d !! lat_col) as [lat|] eqn:Hlat; [|done].
  destruct (df_columns d !! lon_col) as [lon|] eqn:Hlon; [|done].
  intros [= <-]. apply Hwf in Hlat, Hlon. simpl in *.
  rewrite length_zip.
  assert (Hl : forall c, length (col_floats c) = col_length c).
  { intros [xs|xs]; simpl; [done|apply length_fmap]. }
  rewrite !Hl. lia.
Qed.

Section HotspotClustererFacts.
Variable init_centroids : Z -> nat -> list Point -> list Point.
Variable max_iter : nat.

Lemma lloyd_length (cap k : nat) (coords centroids : list Point)
    (previous : option (list Z)) :
  length (lloyd cap k coords centroids previous).1 = length coords.
Proof.
  revert centroids previous.
  induction cap as [|cap IH]; intros centroids previous; simpl;
    destruct (decide _); simpl; try apply length_fmap.
  apply IH.
Qed.

Lemma hotspot_clusterer_invalid (n_clusters : Z) (coords : list Point) :
  (Z.of_nat (length coords) < n_clusters)%Z \/ (n_clusters < 1)%Z
    \/ coords = [] ->
  hotspot_clusterer init_centroids max_iter n_clusters coords
    = Raise InvalidParameter.
Proof.
  intros Hbad. unfold hotspot_clusterer.
  rewrite bool_decide_eq_true_2; [done|].
  destruct Hbad as [?|[?| ->]]; auto.
Qed.

Lemma hotspot_clusterer_valid (n_clusters : Z) (coords : list Point) :
  (1 <= n_clusters <= Z.of_nat (length coords))%Z ->
  exists labels centers,
    hotspot_clusterer init_centroids max_iter n_clusters coords
      = Ok (labels, centers) /\
    length labels = length coords.
Proof.
  intros Hk. unfold hotspot_clusterer.
  rewrite bool_decide_eq_false_2 by lia.
  destruct (lloyd _ _ _ _ _) as [labels centers] eqn:Hrun.
  exists labels, centers. split; [done|].
  by rewrite <- (lloyd_length (Nat.pred max_iter) (Z.to_nat n_clusters)
    coords (init_centroids 42 (Z.to_nat n_clusters) coords) None), Hrun.
Qed.

(** C4: with [n] points in the frame, [cluster_hotspots] fails with
    [InvalidParameter] exactly when [n_clusters > n], [n_clusters < 1] or
    there is no point; for [n_clusters] in [1, n] it succeeds. *)
Theorem cluster_hotspots_invalid_parameter (df : ref)
    (lat_col lon_col : string) (n_clusters : Z) (σ : heap)
    (coords : list Point) :
  df_wf (σ df) ->
  df_values2 (σ df) lat_col lon_col = Ok coords ->
  let outcome :=
    (cluster_hotspots (hotspot_clusterer init_centroids max_iter)
       df lat_col lon_col n_clusters σ).1 in
  ((Z.of_nat (length coords) < n_clusters)%Z \/ (n_clusters < 1)%Z
     \/ coords = [] <->
   outcome = Raise InvalidParameter) /\
  ((1 <= n_clusters <= Z.of_nat (length coords))%Z <-> is_ok outcome).
Proof.
  intros Hwf Hcoords outcome. subst outcome.
  rewrite cluster_hotspots_eq, Hcoords.
  destruct (decide ((1 <= n_clusters <= Z.of_nat (length coords))%Z))
    as [Hk|Hk].
  - destruct (hotspot_clusterer_valid n_clusters coords Hk)
      as (labels & centers & -> & Hlen).
    unfold df_with_column.
    rewrite bool_decide_eq_true_2
      by (simpl; rewrite Hlen; by eapply df_values2_length).
    simpl. split; split; try done.
    + intros [?|[?| ->]]; simpl in *; lia.
    + by eexists.
  - rewrite hotspot_clusterer_invalid; simpl.
    + split; split; try done.
      * intros _. destruct coords; [by auto|]. simpl in *. lia.
      * intros [? [=]].
    + destruct coords; [by auto|]. simpl in *. lia.
Qed.

End HotspotClustererFacts.

(** *** Cluster ids and labels *)

Lemma unique_acc (xs acc : list Z) :
  NoDup acc ->
  let r := foldl (fun acc x => if bool_decide (x ∈ acc) then acc else acc ++ [x])
             acc xs in
  NoDup r /\ forall x, x ∈ r <-> x ∈ acc \/ x ∈ xs.
Proof.
  revert acc. induction xs as [|y xs IH]; intros acc Hnd; simpl.
  - split; [done|]. intros x. rewrite elem_of_nil. tauto.
  - case_bool_decide as Hy.
    + destruct (IH acc Hnd) as [Hnd' Hin]. split; [done|].
      intros x. rewrite Hin, elem_of_cons.
      split; [tauto|]. intros [?|[->|?]]; tauto.
    + destruct (IH (acc ++ [y])) as [Hnd' Hin].
      { apply NoDup_app. split; [done|]. split; [|apply NoDup_singleton].
        intros x Hx ->%list_elem_of_singleton. done. }
      split; [done|]. intros x.
      rewrite Hin, elem_of_app, list_elem_of_singleton, elem_of_cons.
      tauto.
Qed.

Lemma NoDup_unique (xs : list Z) : NoDup (unique xs).
Proof. apply (unique_acc xs []). constructor. Qed.

Lemma elem_of_unique (xs : list Z) (x : Z) : x ∈ unique xs <-> x ∈ xs.
Proof.
  destruct (unique_acc xs [] (NoDup_nil_2 (A:=Z))) as [_ Hin].
  unfold unique. rewrite Hin, elem_of_nil. tauto.
Qed.

Lemma StronglySorted_le_lt (l : list Z) :
  StronglySorted Z.le l -> NoDup l -> StronglySorted Z.lt l.
Proof.
  induction 1 as [|x l Hs IH Hall]; intros Hnd; [constructor|].
  apply NoDup_cons in Hnd as [Hx Hnd]. constructor; [by apply IH|].
  rewrite Forall_forall in Hall. apply Forall_forall. intros y Hy.
  specialize (Hall y Hy). assert (x <> y) by (by intros ->). lia.
Qed.

(** The loop runs over the distinct cluster ids in ascending order. *)
Lemma sorted_unique_ascending (labels : list Z) :
  StronglySorted Z.lt (sorted (unique labels)) /\
  forall c, c ∈ sorted (unique labels) <-> c ∈ labels.
Proof.
  unfold sorted. split.
  - apply StronglySorted_le_lt.
    + apply StronglySorted_merge_sort; apply _.
    + rewrite merge_sort_Permutation. apply NoDup_unique.
  - intros c. by rewrite merge_sort_Permutation, elem_of_unique.
Qed.

Lemma cluster_label_inj (c c' : Z) : cluster_label c = cluster_label c' -> c = c'.
Proof.
  unfold cluster_label. simpl. intros [= Heq]. by apply (inj pretty).
Qed.

Lemma dict_set_fresh {V} (key : string) (v : V) (d : list (string * V)) :
  key ∉ d.*1 -> dict_set key v d = d ++ [(key, v)].
Proof.
  induction d as [|[key' v'] d IH]; intros Hfresh; simpl; [done|].
  simpl in Hfresh. apply not_elem_of_cons in Hfresh as [Hne Hfresh].
  destruct (decide (key = key')); [done|]. by rewrite IH.
Qed.

(** *** The routes of the clusters *)

Lemma optimize_route_default_ok (points : list Point) :
  is_ok (optimize_route_default points).
Proof.
  unfold optimize_route_default. destruct points as [|p points].
  - by exists [].
  - destruct (optimize_route_run (p :: points) 0)
      as (_ & _ & route & _ & _ & Hrun & _); [simpl; lia|].
    by exists route.
Qed.

Lemma routes_loop_entries (df : ref) (lat_col lon_col : string) (σ : heap)
    (labels : list Z) (coords : list Point) (cluster_ids : list Z) :
  df_columns (σ df) !! "Cluster" = Some (IntCol labels) ->
  df_values2 (σ df) lat_col lon_col = Ok coords ->
  NoDup cluster_ids ->
  forall routes,
    (forall c, c ∈ cluster_ids -> cluster_label c ∉ routes.*1) ->
    exists entries,
      routes_loop df lat_col lon_col cluster_ids routes σ
        = (Ok (routes ++ entries), σ) /\
      Forall2 (cluster_entry labels coords) cluster_ids entries.
Proof.
  intros Hcol Hcoords.
  induction cluster_ids as [|c ids IH]; intros Hnd routes Hfresh.
  - exists []. simpl. by rewrite app_nil_r.
  - apply NoDup_cons in Hnd as [Hc Hnd].
    destruct (optimize_route_default_ok (rows_where labels c coords))
      as [route Hroute].
    destruct (IH Hnd (routes ++ [(cluster_label c, route)]))
      as (entries & Hloop & Hentries).
    { intros c' Hc'. rewrite fmap_app, elem_of_app. simpl.
      rewrite list_elem_of_singleton. intros [Hin|Heq].
      - revert Hin. apply Hfresh. by right.
      - apply cluster_label_inj in Heq as ->. done. }
    exists ((cluster_label c, route) :: entries). split.
    + simpl. unfold mbind at 1, py_bind.
      unfold df_cluster_points, mbind at 1, py_bind, df_getitem_ints.
      rewrite Hcol. unfold mbind at 1, py_bind, df_getitem_values.
      rewrite Hcoords. unfold mret, py_ret.
      unfold mbind at 1, py_bind, lift. rewrite Hroute.
      rewrite dict_set_fresh by (apply Hfresh; by left).
      rewrite Hloop. by rewrite <- app_assoc.
    + constructor; [|done]. by split.
Qed.


(** ** The demonstration frame *)

Lemma demo_frame_values :
  df_values2 (demo_heap 0) "Latitude" "Longitude" = Ok demo_coords.
Proof. reflexivity. Qed.

Lemma demo_frame_wf : df_wf (demo_heap 0).
Proof.
  unfold demo_heap, demo_frame, df_wf. simpl.
  repeat (apply map_Forall_insert_2; [reflexivity|]).
  apply map_Forall_empty.
Qed.

Lemma demo_frame_unclustered : df_columns (demo_heap 0) !! "Cluster" = None.
Proof. reflexivity. Qed.

(** Counterexample to C6 as stated: on the demonstration frame with two
    clusters the call succeeds and the frame of the caller has a column
    ["Cluster"] afterwards, which it had not before. *)
Lemma cluster_hotspots_changes_frame :
  let before := demo_heap in
  let run := cluster_hotspots demo_KMeans 0 "Latitude" "Longitude" 2 before in
  is_ok run.1 /\
  df_columns (before 0) !! "Cluster" = None /\
  is_Some (df_columns (run.2 0) !! "Cluster") /\
  run.2 <> before.
Proof.
  cbv zeta.
  destruct (hotspot_clusterer_valid first_points 300 2 demo_coords)
    as (labels & centers & Hfit & Hlen); [simpl; lia|].
  fold demo_KMeans in Hfit.
  rewrite cluster_hotspots_eq, demo_frame_values, Hfit.
  unfold df_with_column.
  rewrite bool_decide_eq_true_2 by (simpl; by rewrite Hlen).
  cbn [fst snd]. rewrite fn_lookup_insert. cbn [df_columns].
  assert (Hnew : is_Some (<["Cluster" := IntCol labels]>
                    (df_columns (demo_heap 0)) !! "Cluster"))
    by (rewrite lookup_insert_eq; by eexists).
  split_and!; [by eexists|reflexivity|done|].
  intros Heq.
  apply (f_equal (fun σ : heap => df_columns (σ 0) !! "Cluster")) in Heq.
  rewrite fn_lookup_insert in Heq. cbn [df_columns] in Heq.
  rewrite lookup_insert_eq in Heq. discriminate Heq.
Qed.

(** ** Instances on the data of the demonstration *)

Lemma optimize_route_permutation_witness :
  bengaluru <> [] /\
  (0 <= 0 < Z.of_nat (length bengaluru))%Z /\
  exists route,
    optimize_route bengaluru 0 = Ok route /\
    length route = length bengaluru /\
    route ≡ₚ bengaluru /\
    head route = bengaluru !! Z.to_nat 0.
Proof.
  split; [discriminate|]. split; [simpl; lia|].
  apply (optimize_route_permutation bengaluru 0); [discriminate|simpl; lia].
Defined.

Lemma optimize_route_greedy_witness :
  bengaluru <> [] /\
  (0 <= 0 < Z.of_nat (length bengaluru))%Z /\
  exists p visited route,
    py_getitem bengaluru 0 = Ok p /\
    route_loop bengaluru [0%Z] [p] = Ok (visited, route) /\
    optimize_route bengaluru 0 = Ok route.
Proof.
  split; [discriminate|]. split; [simpl; lia|].
  destruct (optimize_route_greedy bengaluru 0) as (p & visited & route & Hp & Hloop & Hrun & _);
    [discriminate|simpl; lia|].
  by exists p, visited, route.
Defined.

Lemma optimize_route_start_index_witness :
  bengaluru <> [] /\
  optimize_route bengaluru 3 = Raise IndexError /\
  optimize_route bengaluru (-4) = Raise IndexError /\
  is_ok (optimize_route bengaluru 2).
Proof.
  split; [discriminate|].
  split_and!.
  - apply (optimize_route_start_index bengaluru 3); [discriminate|simpl; lia].
  - apply (optimize_route_start_index bengaluru (-4)); [discriminate|simpl; lia].
  - apply (optimize_route_start_index bengaluru 2); [discriminate|simpl; lia].
Defined.

Lemma cluster_hotspots_invalid_parameter_witness :
  df_wf (demo_heap 0) /\
  df_values2 (demo_heap 0) "Latitude" "Longitude" = Ok demo_coords /\
  (cluster_hotspots demo_KMeans 0 "Latitude" "Longitude" 7 demo_heap).1
    = Raise InvalidParameter /\
  (cluster_hotspots demo_KMeans 0 "Latitude" "Longitude" 0 demo_heap).1
    = Raise InvalidParameter /\
  is_ok (cluster_hotspots demo_KMeans 0 "Latitude" "Longitude" 2 demo_heap).1.
Proof.
  assert (Hwf : df_wf (demo_heap 0)).
  { unfold demo_heap, demo_frame, df_wf. simpl.
    repeat (apply map_Forall_insert_2; [reflexivity|]).
    apply map_Forall_empty. }
  assert (Hvalues : df_values2 (demo_heap 0) "Latitude" "Longitude"
                    = Ok demo_coords) by reflexivity.
  split; [exact Hwf|]. split; [exact Hvalues|].
  split_and!.
  - apply (cluster_hotspots_invalid_parameter first_points 300 0
             "Latitude" "Longitude" 7 demo_heap demo_coords Hwf Hvalues).
    left. simpl. lia.
  - apply (cluster_hotspots_invalid_parameter first_points 300 0
             "Latitude" "Longitude" 0 demo_heap demo_coords Hwf Hvalues).
    right. left. lia.
  - apply (cluster_hotspots_invalid_parameter first_points 300 0
             "Latitude" "Longitude" 2 demo_heap demo_coords Hwf Hvalues).
    simpl. lia.
Defined.


(** * Further properties *)

(** ** Distance primitive *)

Section DistanceRange.
Local Open Scope R_scope.

Lemma asin_nonneg (x : R) : 0 <= x <= 1 -> 0 <= asin x.
Proof.
  intros Hx. destruct (Rle_or_lt 0 (asin x)) as [|Hneg]; [done|].
  exfalso. pose proof (asin_bound x) as [Hlo _].
  assert (Hsin : sin (asin x) < sin 0).
  { pose proof PI_RGT_0. apply sin_increasing_1; lra. }
  rewrite sin_asin, sin_0 in Hsin by lra. lra.
Qed.


Lemma haversine_bounds (lat1 lon1 lat2 lon2 : R) :
  0 <= haversine lat1 lon1 lat2 lon2 <= 6371 * PI.
Proof.
  unfold haversine. cbv zeta.
  set (a := hav_a _ _ _ _).
  assert (Ha : 0 <= sqrt a <= 1).
  { split; [apply sqrt_pos|]. subst a. apply sqrt_hav_a_bounds. }
  pose proof (asin_nonneg _ Ha). pose proof (asin_bound (sqrt a)) as [_ ?].
  split; lra.
Qed.


(** X2: the distance is never negative and never more than half the
    circumference of the sphere, [6371 * pi] km. *)
Theorem haversine_range (lat1 lon1 lat2 lon2 : R) :
  0 <= haversine lat1 lon1 lat2 lon2 <= 6371 * PI.
Proof. apply haversine_bounds. Qed.






End DistanceRange.

(** ** Route builder: every start index *)

Lemma py_getitem_in_range {A} (l : list A) (k : Z) :
  (- Z.of_nat (length l) <= k < Z.of_nat (length l))%Z ->
  exists x,
    py_getitem l k = Ok x /\
    l !! Z.to_nat (if (k <? 0)%Z then k + Z.of_nat (length l) else k)%Z
      = Some x.
Proof.
  intros Hk. unfold py_getitem.
  set (k' := (if (k <? 0)%Z then (k + Z.of_nat (length l))%Z else k)).
  assert (Hk' : (0 <= k' < Z.of_nat (length l))%Z)
    by (subst k'; destruct (Z.ltb_spec k 0); lia).
  destruct (Z.leb_spec 0 k') as [_|?]; [|lia].
  destruct (Z.ltb_spec k' (Z.of_nat (length l))) as [_|?]; [|lia].
  simpl. destruct (lookup_lt_is_Some_2 l (Z.to_nat k')) as [x Hx]; [lia|].
  exists x. by rewrite Hx.
Qed.

Lemma py_getitem_Ok_nonneg {A} (l : list A) (k : Z) (x : A) :
  (0 <= k)%Z -> py_getitem l k = Ok x -> l !! Z.to_nat k = Some x.
Proof.
  intros Hk. unfold py_getitem.
  destruct (Z.ltb_spec k 0) as [?|_]; [lia|].
  destruct (_ && _); [|done].
  by destruct (l !! Z.to_nat k) as [y|]; intros [= ->].
Qed.

Lemma py_getitem_Ok_range {A} (l : list A) (k : Z) (x : A) :
  py_getitem l k = Ok x ->
  (- Z.of_nat (length l) <= k < Z.of_nat (length l))%Z.
Proof.
  intros Hk.
  destruct (decide (- Z.of_nat (length l) <= k < Z.of_nat (length l))%Z)
    as [|Hout]; [done|].
  rewrite py_getitem_out_of_range in Hk by lia. done.
Qed.

Lemma next_stop_stops (points : list Point) (visited : list Z)
    (route : list Point) :
  stops_inv points visited route ->
  length visited < length points ->
  exists i p,
    next_stop points visited route = Ok (i, p) /\
    stops_inv points (visited ++ [i]) (route ++ [p]).
Proof.
  intros [Hnd Hrange Hroute Hne Hgreedy] Hlt.
  pose proof (Forall2_length _ _ _ Hroute) as Hlen.
  destruct route as [|last route _] using rev_ind.
  { destruct visited; [done|]. simpl in Hlen. lia. }
  unfold next_stop. rewrite py_getitem_last. simpl.
  pose proof (scan_found_all last visited points) as Hscan.
  unfold scan_found in Hscan.
  destruct (next_idx (scan last visited 0 points scan_init)) as [i|].
  - destruct Hscan as (j & p & -> & Hj & Hp & Hnv & _ & Hleast).
    exists (Z.of_nat j), p. rewrite (py_getitem_nat _ _ _ Hp). simpl.
    split; [done|]. split.
    + apply NoDup_app. split; [done|]. split; [|apply NoDup_singleton].
      intros x Hx ->%list_elem_of_singleton. done.
    + destruct visited as [|s rest]; [done|]. simpl in *.
      apply Forall_app. split; [done|]. apply Forall_singleton. lia.
    + apply Forall2_app; [done|]. constructor; [|done].
      by apply py_getitem_nat.
    + by destruct visited.
    + intros k i prev Hi Hprev.
      destruct (decide (S k < length visited)) as [Hk|Hk].
      * rewrite lookup_app_l in Hi by done.
        rewrite lookup_app_l in Hprev by lia.
        rewrite take_app_le by lia. by eapply Hgreedy.
      * apply lookup_lt_Some in Hi as Hk'. rewrite length_app in Hk'.
        simpl in Hk'. assert (S k = length visited) as Hk'' by lia.
        rewrite Hk'' in Hi. rewrite list_lookup_middle in Hi by done.
        rewrite length_app in Hlen. simpl in Hlen.
        assert (k = length route) as Hkr by lia.
        rewrite lookup_app_l in Hprev by (rewrite length_app; simpl; lia).
        rewrite list_lookup_middle in Hprev by done.
        injection Hi as <-. injection Hprev as <-.
        rewrite Hk'', take_app_length.
        exists j, p. split_and!; try done.
        intros j' p' Hp' Hnv'.
        destruct (Hleast j' p') as [Hle Hfirst]; try done.
        { by eapply lookup_lt_Some. }
        split; [done|]. intros Heq.
        destruct (decide (j' < j)) as [Hjj|]; [|lia].
        apply Hfirst in Hjj. lra.
  - exfalso. destruct Hscan as [_ Hall].
    assert (length points <= length visited); [|lia].
    apply indices_covered. intros j Hj. by apply Hall.
Qed.

Lemma route_loop_stops (points : list Point) (k : nat) :
  forall visited route,
    length points - length visited = k ->
    stops_inv points visited route ->
    exists visited' route',
      route_loop points visited route = Ok (visited', route') /\
      stops_inv points visited' route' /\
      length visited' = length visited `max` length points /\
      visited `prefix_of` visited' /\
      route `prefix_of` route'.
Proof.
  induction k as [|k IH]; intros visited route Hk Hinv;
    rewrite route_loop_eq.
  - destruct (decide (length visited < length points)); [lia|].
    exists visited, route. split_and!; try done. lia.
  - destruct (decide (length visited < length points)) as [Hlt|]; [|lia].
    destruct (next_stop_stops _ _ _ Hinv Hlt) as (i & p & -> & Hinv').
    destruct (IH (visited ++ [i]) (route ++ [p]))
      as (v' & r' & Hloop & ? & Hlen & Hpv & Hpr);
      [rewrite length_app; simpl; lia|done|].
    exists v', r'. split_and!; try done.
    + rewrite length_app in Hlen. simpl in Hlen. lia.
    + etrans; [|done]. by apply prefix_app_r.
    + etrans; [|done]. by apply prefix_app_r.
Qed.

(** A run from any start index that Python accepts. *)
Lemma optimize_route_stops (points : list Point) (start_index : Z) :
  points <> [] ->
  (- Z.of_nat (length points) <= start_index < Z.of_nat (length points))%Z ->
  exists p rest route,
    py_getitem points start_index = Ok p /\
    route_loop points [start_index] [p] = Ok (start_index :: rest, p :: route) /\
    optimize_route points start_index = Ok (p :: route) /\
    stops_inv points (start_index :: rest) (p :: route) /\
    S (length rest) = length points.
Proof.
  intros Hne Hstart.
  destruct (py_getitem_in_range points start_index Hstart) as (p & Hp & _).
  assert (Hinv : stops_inv points [start_index] [p]).
  { split.
    - apply NoDup_singleton.
    - constructor.
    - by constructor.
    - done.
    - intros k i prev Hi _. destruct k; done. }
  destruct (route_loop_stops points _ _ _ eq_refl Hinv)
    as (visited & route & Hloop & Hinv' & Hlen & [rest ->] & [route' ->]).
  exists p, rest, route'. simpl in *. split_and!; try done.
  - unfold optimize_route.
    rewrite bool_decide_eq_false_2 by (by destruct points).
    rewrite Hp. simpl. by rewrite Hloop.
  - destruct points; [done|]. simpl in *. lia.
Qed.


Lemma stops_tail_points (points : list Point) (start : Z) (rest : list Z)
    (p : Point) (route : list Point) :
  stops_inv points (start :: rest) (p :: route) ->
  Forall2 (fun v q => points !! Z.to_nat v = Some q) rest route.
Proof.
  intros [_ Hrange Hroute _ _]. simpl in Hrange.
  apply Forall2_cons_1 in Hroute as [_ Hroute].
  induction Hroute as [|v q vs qs Hv _ IH]; [constructor|].
  apply Forall_cons in Hrange as [Hv0 Hrange].
  constructor; [|by apply IH]. apply py_getitem_Ok_nonneg; [lia|done].
Qed.

(** X7: from a negative start index in [-n, -1] the route still has [n]
    stops and begins with the point that the index denotes, but that point
    is not marked as visited under its own index: the stops after the
    first are the points of [n-1] different indices, so one index of the
    list is never visited, and the second stop, when there is one, lies at
    distance 0 from the first. *)
Theorem optimize_route_negative_start (points : list Point) (start_index : Z) :
  (- Z.of_nat (length points) <= start_index < 0)%Z ->
  exists p rest route,
    points !! Z.to_nat (start_index + Z.of_nat (length points)) = Some p /\
    route_loop points [start_index] [p] = Ok (start_index :: rest, p :: route) /\
    optimize_route points start_index = Ok (p :: route) /\
    length (p :: route) = length points /\
    Forall2 (fun v q => points !! Z.to_nat v = Some q) rest route /\
    Forall (fun v => (0 <= v < Z.of_nat (length points))%Z) rest /\
    NoDup rest /\
    (exists j, j < length points /\ Z.of_nat j ∉ start_index :: rest) /\
    (forall q, head route = Some q -> dist_to p q = 0%R).
Proof.
  intros Hstart.
  assert (Hne : points <> []) by (destruct points; [simpl in *; lia|done]).
  destruct (optimize_route_stops points start_index)
    as (p & rest & route & Hp & Hloop & Hrun & Hinv & Hlen); [done|lia|].
  assert (Hp0 : points !! Z.to_nat (start_index + Z.of_nat (length points))
                = Some p).
  { rewrite py_getitem_negative in Hp by lia.
    apply py_getitem_Ok_nonneg in Hp; [done|lia]. }
  pose proof (stops_tail_points _ _ _ _ _ Hinv) as Htail.
  exists p, rest, route. split_and!; try done.
  - simpl. apply Forall2_length in Htail. lia.
  - by destruct Hinv.
  - destruct Hinv as [Hnd _ _ _ _]. by apply NoDup_cons in Hnd as [_ ?].
  - destruct (decide (Forall (fun j => Z.of_nat j ∈ rest)
                        (seq 0 (length points)))) as [Hall|Hex].
    + exfalso. assert (length points <= length rest); [|lia].
      apply indices_covered. intros j Hj.
      rewrite Forall_forall in Hall. apply Hall, elem_of_seq. lia.
    + apply not_Forall_Exists in Hex; [|apply _].
      apply Exists_exists in Hex as (j & Hj%elem_of_seq & Hnot).
      exists j. split; [lia|]. rewrite not_elem_of_cons. split; [lia|done].
  - intros q Hq. destruct route as [|q' route]; [done|].
    injection Hq as ->.
    destruct rest as [|i rest]; [by apply Forall2_length in Htail|].
    destruct Hinv as [_ _ _ _ Hgreedy].
    destruct (Hgreedy 0 i p eq_refl eq_refl)
      as (j & pj & -> & Hpj & _ & Hleast).
    apply Forall2_cons_1 in Htail as [Hq _].
    rewrite Nat2Z.id, Hpj in Hq. injection Hq as ->.
    destruct (Hleast _ p Hp0) as [Hle _].
    { simpl. rewrite list_elem_of_singleton. lia. }
    rewrite dist_to_same in Hle.
    pose proof (haversine_bounds p.1 p.2 q.1 q.2) as [Hge _].
    unfold dist_to in *. lra.
Qed.

Lemma optimize_route_negative_start_witness :
  exists p rest route,
    optimize_route bengaluru (-1) = Ok (p :: route) /\
    NoDup rest /\
    (exists j, j < length bengaluru /\ Z.of_nat j ∉ (-1)%Z :: rest).
Proof.
  destruct (optimize_route_negative_start bengaluru (-1))
    as (p & rest & route & _ & _ & Hrun & _ & _ & _ & Hnd & Hmiss & _);
    [simpl; lia|].
  by exists p, rest, route.
Defined.

(** *** A route is a fixed point of the route builder *)

Lemma stops_greedy_ordered (points : list Point) (visited : list Z)
    (route : list Point) :
  stops_inv points visited route -> greedy_ordered route.
Proof.
  intros [Hnd Hrange Hroute _ Hgreedy] k m q q' p Hq Hq' Hm Hp.
  destruct (Forall2_lookup_r _ _ _ _ _ Hroute Hq') as (i & Hi & Hiq).
  destruct (Forall2_lookup_r _ _ _ _ _ Hroute Hp) as (v & Hv & Hvp).
  destruct (Hgreedy k i q Hi Hq) as (j & pj & -> & Hpj & _ & Hleast).
  rewrite (py_getitem_nat _ _ _ Hpj) in Hiq. injection Hiq as ->.
  assert (Hv0 : (0 <= v)%Z).
  { destruct visited as [|s rest]; [done|]. destruct m; [lia|].
    simpl in Hv. rewrite Forall_forall in Hrange.
    apply list_elem_of_lookup_2 in Hv. apply Hrange in Hv. lia. }
  apply py_getitem_Ok_nonneg in Hvp; [|done].
  destruct (Hleast _ p Hvp) as [Hle _]; [|done].
  rewrite Z2Nat.id by done. intros Hin.
  apply list_elem_of_lookup in Hin as (m' & Hm').
  apply lookup_take_Some in Hm' as [Hm' Hlt].
  pose proof (NoDup_lookup _ _ _ _ Hnd Hm' Hv). lia.
Qed.

Lemma route_loop_greedy_ordered (route : list Point) :
  greedy_ordered route ->
  forall d k,
    length route - S k = d -> S k <= length route ->
    route_loop route (Z.of_nat <$> seq 0 (S k)) (take (S k) route)
      = Ok (Z.of_nat <$> seq 0 (length route), route).
Proof.
  intros Hord d. induction d as [|d IH]; intros k Hd Hk;
    rewrite route_loop_eq; rewrite length_fmap, length_seq.
  - destruct (decide (S k < length route)); [lia|].
    assert (S k = length route) as -> by lia. by rewrite firstn_all.
  - destruct (decide (S k < length route)) as [Hlt|]; [|lia].
    destruct (lookup_lt_is_Some_2 route k) as [q Hq]; [lia|].
    destruct (lookup_lt_is_Some_2 route (S k)) as [q' Hq']; [lia|].
    assert (Hnext : next_stop route (Z.of_nat <$> seq 0 (S k))
                      (take (S k) route) = Ok (Z.of_nat (S k), q')).
    { unfold next_stop. rewrite (take_S_r _ _ _ Hq), py_getitem_last.
      simpl.
      pose proof (scan_found_all q (Z.of_nat <$> seq 0 (S k)) route) as Hscan.
      unfold scan_found in Hscan.
      destruct (next_idx _) as [i|].
      - destruct Hscan as (j & p & -> & Hj & Hp & Hnv & _ & Hleast).
        assert (Hjk : S k <= j).
        { destruct (decide (S k <= j)); [done|]. exfalso. apply Hnv.
          apply list_elem_of_fmap. exists j. split; [done|].
          apply elem_of_seq. lia. }
        assert (j = S k) as ->.
        { destruct (decide (j = S k)); [done|]. exfalso.
          destruct (Hleast (S k) q') as [_ Hstrict]; [lia|done| |].
          - intros (j' & Hj' & Hin%elem_of_seq)%list_elem_of_fmap. lia.
          - pose proof (Hord k j q q' p Hq Hq' Hjk Hp).
            assert (S k < j) as Hsk by lia. apply Hstrict in Hsk. lra. }
        rewrite (py_getitem_nat _ _ _ Hp). simpl. congruence.
      - exfalso. destruct Hscan as [_ Hall].
        assert (length route <= length (Z.of_nat <$> seq 0 (S k))).
        { apply indices_covered. intros j Hj. by apply Hall. }
        rewrite length_fmap, length_seq in H. lia. }
    rewrite Hnext.
    replace ((Z.of_nat <$> seq 0 (S k)) ++ [Z.of_nat (S k)])
      with (Z.of_nat <$> seq 0 (S (S k)))
      by (by rewrite (seq_S (S k)), fmap_app).
    rewrite <- (take_S_r _ _ _ Hq'). apply IH; lia.
Qed.

(** X8: a route that [optimize_route] returns, from any start index, is a
    fixed point of the route builder: run again on that route from index
    0, it returns the same route. *)
Theorem optimize_route_idempotent (points : list Point) (start_index : Z)
    (route : list Point) :
  optimize_route points start_index = Ok route ->
  optimize_route route 0 = Ok route.
Proof.
  intros Hrun. destruct points as [|p0 points].
  { injection Hrun as <-. done. }
  destruct (decide (- Z.of_nat (length (p0 :: points)) <= start_index
                    < Z.of_nat (length (p0 :: points)))%Z) as [Hin|Hout].
  - destruct (optimize_route_stops (p0 :: points) start_index)
      as (p & rest & route' & _ & _ & Hrun' & Hinv & _); [done..|].
    rewrite Hrun' in Hrun. injection Hrun as <-.
    apply stops_greedy_ordered in Hinv.
    assert (Hloop : route_loop (p :: route') [0%Z] [p]
                    = Ok (Z.of_nat <$> seq 0 (length (p :: route')),
                          p :: route')).
    { apply (route_loop_greedy_ordered _ Hinv _ 0 eq_refl). simpl. lia. }
    unfold optimize_route.
    rewrite bool_decide_eq_false_2 by done.
    assert (Hfirst : py_getitem (p :: route') 0 = Ok p)
      by apply (py_getitem_nat (p :: route') 0 p eq_refl).
    rewrite Hfirst. simpl. by rewrite Hloop.
  - unfold optimize_route in Hrun.
    rewrite bool_decide_eq_false_2 in Hrun by done.
    rewrite py_getitem_out_of_range in Hrun by lia. done.
Qed.

Lemma optimize_route_idempotent_witness :
  optimize_route antipodes (-1) = Ok [(0, 180); (0, 180)]%R /\
  optimize_route [(0, 180); (0, 180)]%R 0 = Ok [(0, 180); (0, 180)]%R.
Proof.
  split; [apply optimize_route_antipodes_last|].
  apply (optimize_route_idempotent antipodes (-1)).
  apply optimize_route_antipodes_last.
Defined.

(** ** Hotspot clustering and the pipeline: errors and composition *)

Lemma generate_collection_routes_raise (KMeans : estimator) (df : ref)
    (lat_col lon_col : string) (n_clusters : Z) (σ σ1 : heap) (e : exn) :
  cluster_hotspots KMeans df lat_col lon_col n_clusters σ = (Raise e, σ1) ->
  generate_collection_routes KMeans df lat_col lon_col n_clusters σ
    = (Raise e, σ1).
Proof.
  intros Hrun. unfold generate_collection_routes, mbind at 1, py_bind.
  by rewrite Hrun.
Qed.

(** X9: when the frame has no column [lat_col] or no column [lon_col],
    [cluster_hotspots] and [generate_collection_routes] raise [KeyError]
    before the estimator is run, and the frame is left as it was. *)
Theorem cluster_hotspots_missing_column (KMeans : estimator) (df : ref)
    (lat_col lon_col : string) (n_clusters : Z) (σ : heap) :
  df_columns (σ df) !! lat_col = None \/ df_columns (σ df) !! lon_col = None ->
  cluster_hotspots KMeans df lat_col lon_col n_clusters σ
    = (Raise KeyError, σ) /\
  generate_collection_routes KMeans df lat_col lon_col n_clusters σ
    = (Raise KeyError, σ).
Proof.
  intros Hmiss.
  assert (Hrun : cluster_hotspots KMeans df lat_col lon_col n_clusters σ
                 = (Raise KeyError, σ)).
  { rewrite cluster_hotspots_eq. unfold df_values2.
    destruct Hmiss as [-> | ->]; [done|].
    by destruct (df_columns (σ df) !! lat_col). }
  split; [done|]. by apply generate_collection_routes_raise.
Qed.

Lemma cluster_hotspots_missing_column_witness :
  df_columns (demo_heap 0) !! "Lat" = None /\
  cluster_hotspots demo_KMeans 0 "Lat" "Longitude" 2 demo_heap
    = (Raise KeyError, demo_heap).
Proof.
  split; [reflexivity|].
  apply (cluster_hotspots_missing_column demo_KMeans 0 "Lat" "Longitude" 2
           demo_heap).
  left. reflexivity.
Defined.

(** X10: when the column selectors are not ["Cluster"], a second call of
    [cluster_hotspots] with the same arguments returns what the first
    returned and leaves every frame as the first call left it: the column
    ["Cluster"] is replaced, not added again. *)
Theorem cluster_hotspots_twice (KMeans : estimator) (df : ref)
    (lat_col lon_col : string) (n_clusters : Z) (σ σ1 : heap)
    (r : ref * list Point) :
  lat_col <> "Cluster" -> lon_col <> "Cluster" ->
  cluster_hotspots KMeans df lat_col lon_col n_clusters σ = (Ok r, σ1) ->
  exists σ2,
    cluster_hotspots KMeans df lat_col lon_col n_clusters σ1 = (Ok r, σ2) /\
    forall other, σ2 other = σ1 other.
Proof.
  intros Hlat Hlon Hrun. destruct r as [df_clustered centers].
  destruct (cluster_hotspots_success _ _ _ _ _ _ _ _ _ Hrun)
    as (-> & coords & labels & Hcoords & Hfit & Hlen & ->).
  rewrite cluster_hotspots_eq, fn_lookup_insert.
  assert (Hcoords' :
    df_values2 (mkDataFrame (df_index (σ df))
                  (<["Cluster" := IntCol labels]> (df_columns (σ df))))
      lat_col lon_col = Ok coords).
  { unfold df_values2 in *. simpl. by rewrite !lookup_insert_ne by done. }
  rewrite Hcoords', Hfit. unfold df_with_column.
  rewrite bool_decide_eq_true_2 by done. simpl.
  eexists. split; [done|]. intros other.
  destruct (decide (other = df)) as [->|Hne].
  - by rewrite !fn_lookup_insert, insert_insert_eq.
  - by rewrite !fn_lookup_insert_ne.
Qed.

Lemma cluster_hotspots_twice_witness :
  exists r σ1 σ2,
    cluster_hotspots demo_KMeans 0 "Latitude" "Longitude" 1 demo_heap
      = (Ok r, σ1) /\
    cluster_hotspots demo_KMeans 0 "Latitude" "Longitude" 1 σ1 = (Ok r, σ2) /\
    forall other, σ2 other = σ1 other.
Proof.
  eexists _, _.
  destruct (cluster_hotspots_twice demo_KMeans 0 "Latitude" "Longitude" 1
              demo_heap _ _ ltac:(discriminate) ltac:(discriminate) eq_refl)
    as (σ2 & Hrun & Hsame).
  exists σ2. split; [reflexivity|]. split; [exact Hrun|exact Hsame].
Defined.

Lemma df_values2_after_setitem (d : DataFrame) (lat_col lon_col : string)
    (coords : list Point) (col : column) :
  df_values2 d lat_col lon_col = Ok coords ->
  is_ok (df_values2 (mkDataFrame (df_index d)
                       (<["Cluster" := col]> (df_columns d)))
           lat_col lon_col).
Proof.
  unfold df_values2. simpl.
  destruct (df_columns d !! lat_col) as [lat|] eqn:Hlat; [|done].
  destruct (df_columns d !! lon_col) as [lon|] eqn:Hlon; [|done].
  intros _. rewrite !lookup_insert. repeat case_decide; rewrite ?Hlat, ?Hlon;
    by eexists.
Qed.

Lemma generate_collection_routes_ok (KMeans : estimator) (df : ref)
    (lat_col lon_col : string) (n_clusters : Z) (σ σ1 : heap)
    (r : ref * list Point) :
  cluster_hotspots KMeans df lat_col lon_col n_clusters σ = (Ok r, σ1) ->
  exists routes,
    generate_collection_routes KMeans df lat_col lon_col n_clusters σ
      = (Ok routes, σ1).
Proof.
  intros Hrun. destruct r as [df_clustered centers].
  destruct (cluster_hotspots_success _ _ _ _ _ _ _ _ _ Hrun)
    as (-> & coords & labels & Hcoords & Hfit & _ & Hσ1).
  destruct (df_values2_after_setitem _ _ _ _ (IntCol labels) Hcoords)
    as [coords' Hcoords'].
  assert (Hcol : df_columns (σ1 df) !! "Cluster" = Some (IntCol labels))
    by (by rewrite Hσ1, fn_lookup_insert; simpl; rewrite lookup_insert_eq).
  assert (Hvalues : df_values2 (σ1 df) lat_col lon_col = Ok coords')
    by (by rewrite Hσ1, fn_lookup_insert).
  assert (Hnd : NoDup (sorted (unique labels))).
  { unfold sorted. rewrite merge_sort_Permutation. apply NoDup_unique. }
  destruct (routes_loop_entries df lat_col lon_col σ1 labels coords'
              (sorted (unique labels)) Hcol Hvalues Hnd [])
    as (routes & Hloop & _).
  { intros c _. simpl. apply not_elem_of_nil. }
  exists routes.
  unfold generate_collection_routes, mbind at 1, py_bind. rewrite Hrun.
  unfold mbind at 1, py_bind, df_getitem_ints. by rewrite Hcol.
Qed.

(** X11: [generate_collection_routes] fails exactly when
    [cluster_hotspots] fails, with the same exception and the same store;
    when clustering succeeds, reading the clusters back and routing them
    raises nothing and changes no frame. *)
Theorem generate_collection_routes_outcome (KMeans : estimator) (df : ref)
    (lat_col lon_col : string) (n_clusters : Z) (σ : heap) :
  match cluster_hotspots KMeans df lat_col lon_col n_clusters σ with
  | (Raise e, σ1) =>
      generate_collection_routes KMeans df lat_col lon_col n_clusters σ
        = (Raise e, σ1)
  | (Ok _, σ1) =>
      exists routes,
        generate_collection_routes KMeans df lat_col lon_col n_clusters σ
          = (Ok routes, σ1)
  end.
Proof.
  destruct (cluster_hotspots KMeans df lat_col lon_col n_clusters σ)
    as [[r|e] σ1] eqn:Hrun.
  - by eapply generate_collection_routes_ok.
  - by apply generate_collection_routes_raise.
Qed.

Lemma demo_pipeline_ok :
  exists routes σ',
    generate_collection_routes demo_KMeans 0 "Latitude" "Longitude" 2
      demo_heap = (Ok routes, σ').
Proof.
  destruct (hotspot_clusterer_valid first_points 300 2 demo_coords)
    as (labels & centers & Hfit & Hlen); [simpl; lia|].
  fold demo_KMeans in Hfit.
  assert (Hrun : exists r σ1,
    cluster_hotspots demo_KMeans 0 "Latitude" "Longitude" 2 demo_heap
      = (Ok r, σ1)).
  { rewrite cluster_hotspots_eq, demo_frame_values, Hfit.
    unfold df_with_column.
    rewrite bool_decide_eq_true_2 by (simpl; by rewrite Hlen).
    by eexists _, _. }
  destruct Hrun as (r & σ1 & Hrun).
  destruct (generate_collection_routes_ok _ _ _ _ _ _ _ _ Hrun) as [routes ?].
  by exists routes, σ1.
Qed.

(** *** The routes cover the input *)

Lemma pipeline_entries (KMeans : estimator) (df : ref)
    (lat_col lon_col : string) (n_clusters : Z) (σ σ' : heap)
    (routes : list (string * list Point)) :
  lat_col <> "Cluster" -> lon_col <> "Cluster" ->
  generate_collection_routes KMeans df lat_col lon_col n_clusters σ
    = (Ok routes, σ') ->
  exists coords labels centers,
    df_values2 (σ df) lat_col lon_col = Ok coords /\
    KMeans n_clusters coords = Ok (labels, centers) /\
    length labels = df_index (σ df) /\
    Forall2 (cluster_entry labels coords) (sorted (unique labels)) routes.
Proof.
  intros Hlat Hlon Hpipe.
  destruct (cluster_hotspots KMeans df lat_col lon_col n_clusters σ)
    as [[[df_clustered centers]|e] σ1] eqn:Hrun.
  2: { by rewrite (generate_collection_routes_raise _ _ _ _ _ _ _ _ Hrun)
         in Hpipe. }
  destruct (cluster_hotspots_success _ _ _ _ _ _ _ _ _ Hrun)
    as (-> & coords & labels & Hcoords & Hfit & Hlen & Hσ1).
  assert (Hcol : df_columns (σ1 df) !! "Cluster" = Some (IntCol labels))
    by (by rewrite Hσ1, fn_lookup_insert; simpl; rewrite lookup_insert_eq).
  assert (Hvalues : df_values2 (σ1 df) lat_col lon_col = Ok coords).
  { rewrite Hσ1, fn_lookup_insert. unfold df_values2 in *. simpl.
    by rewrite !lookup_insert_ne by done. }
  assert (Hnd : NoDup (sorted (unique labels))).
  { unfold sorted. rewrite merge_sort_Permutation. apply NoDup_unique. }
  destruct (routes_loop_entries df lat_col lon_col σ1 labels coords
              (sorted (unique labels)) Hcol Hvalues Hnd [])
    as (routes' & Hloop & Hentries).
  { intros c _. simpl. apply not_elem_of_nil. }
  unfold generate_collection_routes, mbind at 1, py_bind in Hpipe.
  rewrite Hrun in Hpipe.
  unfold mbind at 1, py_bind, df_getitem_ints in Hpipe.
  rewrite Hcol, Hloop in Hpipe. injection Hpipe as <- _.
  by exists coords, labels, centers.
Qed.

(** What the route builder returns from index 0. *)
Lemma optimize_route_first (points route : list Point) :
  optimize_route points 0 = Ok route ->
  route ≡ₚ points /\ head route = head points.
Proof.
  destruct points as [|p points]; [by intros [= <-]|].
  destruct (optimize_route_run (p :: points) 0)
    as (p' & visited & route' & Hp & _ & Hrun & Hinv & Hlen & [rest ->]);
    [simpl; lia|].
  rewrite Hrun. intros [= <-].
  destruct (route_inv_permutation _ _ _ Hinv Hlen) as [_ Hperm].
  split; [done|]. simpl in *. congruence.
Qed.

Lemma rows_partition (rows : list (Z * Point)) (ids : list Z) :
  NoDup ids ->
  (forall z, z ∈ rows -> z.1 ∈ ids) ->
  concat ((fun c => (filter (fun z => z.1 = c) rows).*2) <$> ids)
    ≡ₚ rows.*2.
Proof.
  intros Hnd. induction rows as [|z rows IH]; intros Hin.
  - simpl. clear. induction ids as [|c ids IH]; [done|]. by simpl.
  - assert (Hz : z.1 ∈ ids) by (apply Hin; by left).
    apply list_elem_of_split in Hz as (ids1 & ids2 & ->).
    apply NoDup_app in Hnd as Hnd'. destruct Hnd' as (_ & Hdisj & Hnd2).
    apply NoDup_cons in Hnd2 as [Hz2 _].
    assert (Hz1 : z.1 ∉ ids1).
    { intros Hz1. apply (Hdisj _ Hz1). by left. }
    specialize (IH ltac:(intros z' Hz'; apply Hin; by right)).
    rewrite !fmap_app, !concat_app, !fmap_cons, !concat_cons in *.
    rewrite (filter_cons_True _ z rows) by done.
    assert (Hext : forall l : list Z, z.1 ∉ l ->
      (fun c => (filter (fun z0 => z0.1 = c) (z :: rows)).*2) <$> l
      = (fun c => (filter (fun z0 => z0.1 = c) rows).*2) <$> l).
    { intros l Hl. apply list_fmap_ext. intros i c Hc.
      rewrite filter_cons_False; [done|].
      intros Heq. apply Hl. rewrite Heq.
      by eapply list_elem_of_lookup_2. }
    rewrite (Hext ids1 Hz1), (Hext ids2 Hz2).
    rewrite (fmap_cons snd z). simpl.
    rewrite <- Permutation_middle. by constructor.
Qed.

Lemma rows_where_partition (labels : list Z) (coords : list Point)
    (ids : list Z) :
  NoDup ids -> (forall c, c ∈ labels -> c ∈ ids) ->
  length labels = length coords ->
  concat ((fun c => rows_where labels c coords) <$> ids) ≡ₚ coords.
Proof.
  intros Hnd Hin Hlen. unfold rows_where.
  rewrite rows_partition; [by rewrite snd_zip by lia|done|].
  intros [l p] Hz. apply Hin.
  apply list_elem_of_lookup in Hz as (i & Hi).
  apply lookup_zip_with_Some in Hi as (l' & p' & [= <- <-] & Hl & _).
  by eapply list_elem_of_lookup_2.
Qed.

Lemma rows_where_nonempty (labels : list Z) (coords : list Point) (c : Z) :
  c ∈ labels -> length labels = length coords ->
  rows_where labels c coords <> [].
Proof.
  intros (i & Hi)%list_elem_of_lookup Hlen.
  destruct (lookup_lt_is_Some_2 coords i) as [p Hp].
  { apply lookup_lt_Some in Hi. lia. }
  assert (Hz : (c, p) ∈ zip labels coords).
  { apply list_elem_of_lookup. exists i.
    apply lookup_zip_with_Some. by exists c, p. }
  unfold rows_where. intros Hnil.
  assert (Hin : p ∈ (filter (fun lp : Z * Point => lp.1 = c)
                       (zip labels coords)).*2).
  { apply list_elem_of_fmap. exists (c, p). split; [done|].
    by apply list_elem_of_filter. }
  rewrite Hnil in Hin. by apply elem_of_nil in Hin.
Qed.

(** X12: on a frame whose columns have one entry per row, and with column
    selectors other than ["Cluster"], the routes that
    [generate_collection_routes] returns hold every input row exactly
    once between them, and no route is empty. *)
Theorem generate_collection_routes_partition (KMeans : estimator) (df : ref)
    (lat_col lon_col : string) (n_clusters : Z) (σ σ' : heap)
    (routes : list (string * list Point)) :
  df_wf (σ df) ->
  lat_col <> "Cluster" -> lon_col <> "Cluster" ->
  generate_collection_routes KMeans df lat_col lon_col n_clusters σ
    = (Ok routes, σ') ->
  exists coords,
    df_values2 (σ df) lat_col lon_col = Ok coords /\
    concat routes.*2 ≡ₚ coords /\
    Forall (fun route => route <> []) routes.*2.
Proof.
  intros Hwf Hlat Hlon Hpipe.
  destruct (pipeline_entries _ _ _ _ _ _ _ _ Hlat Hlon Hpipe)
    as (coords & labels & centers & Hcoords & _ & Hlen & Hentries).
  rewrite <- (df_values2_length _ _ _ _ Hwf Hcoords) in Hlen.
  destruct (sorted_unique_ascending labels) as [_ Hmem].
  assert (Hnd : NoDup (sorted (unique labels))).
  { unfold sorted. rewrite merge_sort_Permutation. apply NoDup_unique. }
  exists coords. split; [done|]. split.
  - rewrite <- (rows_where_partition labels coords (sorted (unique labels)))
      by (try done; intros c; apply Hmem).
    clear -Hentries.
    induction Hentries as [|c e cs es [_ He] _ IH]; [done|].
    simpl. apply optimize_route_first in He as [He _]. by rewrite He, IH.
  - assert (Hids : Forall (fun c => c ∈ labels) (sorted (unique labels)))
      by (apply Forall_forall; intros c; apply Hmem).
    clear -Hentries Hids Hlen.
    induction Hentries as [|c e cs es [_ He] _ IH]; [constructor|].
    apply Forall_cons in Hids as [Hc Hids]. simpl.
    constructor; [|by apply IH].
    apply optimize_route_first in He as [He _]. intros Hnil.
    rewrite Hnil in He. apply Permutation_nil_l in He.
    by apply (rows_where_nonempty labels coords c).
Qed.

Lemma generate_collection_routes_partition_witness :
  exists routes σ',
    generate_collection_routes demo_KMeans 0 "Latitude" "Longitude" 2
      demo_heap = (Ok routes, σ') /\
    concat routes.*2 ≡ₚ demo_coords /\
    Forall (fun route => route <> []) routes.*2.
Proof.
  destruct demo_pipeline_ok as (routes & σ' & Hpipe).
  exists routes, σ'.
  destruct (generate_collection_routes_partition demo_KMeans 0
              "Latitude" "Longitude" 2 demo_heap σ' routes)
    as (coords & Hcoords & Hperm & Hne);
    [apply demo_frame_wf|discriminate|discriminate|exact Hpipe|].
  rewrite demo_frame_values in Hcoords. injection Hcoords as <-.
  split; [exact Hpipe|]. split; [exact Hperm|exact Hne].
Defined.

(** X13: with column selectors other than ["Cluster"], the route of each
    cluster is a permutation of the rows of that cluster and starts at the
    first of them in input order. *)
Theorem generate_collection_routes_starts (KMeans : estimator) (df : ref)
    (lat_col lon_col : string) (n_clusters : Z) (σ σ' : heap)
    (routes : list (string * list Point)) :
  lat_col <> "Cluster" -> lon_col <> "Cluster" ->
  generate_collection_routes KMeans df lat_col lon_col n_clusters σ
    = (Ok routes, σ') ->
  exists coords labels centers,
    df_values2 (σ df) lat_col lon_col = Ok coords /\
    KMeans n_clusters coords = Ok (labels, centers) /\
    Forall2 (fun c entry =>
               entry.1 = cluster_label c /\
               entry.2 ≡ₚ rows_where labels c coords /\
               head entry.2 = head (rows_where labels c coords))
      (sorted (unique labels)) routes.
Proof.
  intros Hlat Hlon Hpipe.
  destruct (pipeline_entries _ _ _ _ _ _ _ _ Hlat Hlon Hpipe)
    as (coords & labels & centers & Hcoords & Hfit & _ & Hentries).
  exists coords, labels, centers. split_and!; try done.
  eapply Forall2_impl; [exact Hentries|].
  intros c entry [Hkey Hroute].
  apply optimize_route_first in Hroute as [? ?]. done.
Qed.

Lemma generate_collection_routes_starts_witness :
  exists routes σ' coords labels,
    generate_collection_routes demo_KMeans 0 "Latitude" "Longitude" 2
      demo_heap = (Ok routes, σ') /\
    Forall2 (fun c entry =>
               entry.1 = cluster_label c /\
               entry.2 ≡ₚ rows_where labels c coords /\
               head entry.2 = head (rows_where labels c coords))
      (sorted (unique labels)) routes.
Proof.
  destruct demo_pipeline_ok as (routes & σ' & Hpipe).
  destruct (generate_collection_routes_starts demo_KMeans 0
              "Latitude" "Longitude" 2 demo_heap σ' routes)
    as (coords & labels & centers & _ & _ & Hentries);
    [discriminate|discriminate|exact Hpipe|].
  by exists routes, σ', coords, labels.
Defined.

(** ** Route builder: only the distances matter *)

Section Isometry.
Variable f : Point -> Point.
Hypothesis f_dist : forall p q, dist_to (f p) (f q) = dist_to p q.






End Isometry.



(** ** The explanation endpoint *)

Section ExplainEndpointFacts.
Variable Explainer : Type.
Variable SHAPExplainer : string -> string -> list string -> string + Explainer.
Variable global_text_summary : Explainer -> string + string.
Variable local_text_summary : Explainer -> Z -> string + string.
Variable http_str : Z -> string -> string.

(** X15: [explain_shap] never fails with status 400: the [HTTPException]
    with status 400 that it raises for a module other than ["uhi"],
    ["flood"] and ["plastic"] is caught by its own [except Exception] and
    raised again with status 500, the [str] of the first as detail; every
    failure of the endpoint has status 500. *)
Theorem explain_shap_status (module : string) (index : Z) :
  (forall e,
     explain_shap Explainer SHAPExplainer global_text_summary
       local_text_summary http_str module index = Failed e ->
     exists detail, e = HTTPException 500 detail) /\
  (module <> "uhi" -> module <> "flood" -> module <> "plastic" ->
   explain_shap Explainer SHAPExplainer global_text_summary
     local_text_summary http_str module index
   = Failed (HTTPException 500 (http_str 400 "Invalid module name"))).
Proof.
  split.
  - intros e. unfold explain_shap.
    destruct (explain_shap_try _ _ _ _ _ _) as [response|e']; [done|].
    intros [= <-]. by eexists.
  - intros Huhi Hflood Hplastic. unfold explain_shap, explain_shap_try.
    by rewrite !decide_False by done.
Qed.

End ExplainEndpointFacts.

Lemma explain_shap_status_witness :
  explain_shap unit (fun _ _ _ => inr tt) (fun _ => inr "global")
    (fun _ _ => inr "local")
    (fun status detail => pretty status +:+ ": " +:+ detail) "air" 0
  = Failed (HTTPException 500
              (pretty 400%Z +:+ ": " +:+ "Invalid module name")).
Proof.
  apply (proj2 (explain_shap_status unit (fun _ _ _ => inr tt)
           (fun _ => inr "global") (fun _ _ => inr "local")
           (fun status detail => pretty status +:+ ": " +:+ detail) "air" 0));
    discriminate.
Defined.
